(** * GitHub trending developers crawler: a shallow embedding of [main.py]

    The development follows the script top to bottom: Python text and the
    exceptions it can raise, the parsed page behind the query interface the
    script uses, the outside world (network, clock, disk, console), and then
    the seven functions of the script under their own names.  The properties
    of the extraction pipeline are proved after the definitions. *)

From stdpp Require Import base option list gmap strings pretty sorting.

(** ** Python text

    A Python [str] is a sequence of Unicode code points; [len] counts code
    points and [s[:n]] keeps the first [n] of them. *)

Abbreviation str := (list N).

(** A literal of the script, as text. *)
Fixpoint py (s : string) : str :=
  match s with
  | EmptyString => []
  | String a s' => Ascii.N_of_ascii a :: py s'
  end.
Arguments py : simpl never.

(** [str.isspace] on one code point: the characters whose general category
    is Zs or whose bidirectional class is WS, B or S. *)
Definition isspace (c : N) : bool :=
  ((9 <=? c) && (c <=? 13) || (28 <=? c) && (c <=? 32)
   || (c =? 133) || (c =? 160) || (c =? 5760)
   || (8192 <=? c) && (c <=? 8202)
   || (c =? 8232) || (c =? 8233) || (c =? 8239) || (c =? 8287)
   || (c =? 12288))%N.

Fixpoint lstrip (s : str) : str :=
  match s with
  | [] => []
  | c :: s' => if isspace c then lstrip s' else s
  end.

Definition rstrip (s : str) : str := reverse (lstrip (reverse s)).

(** [s.strip()] *)
Definition strip (s : str) : str := rstrip (lstrip s).

(** Truth value of a text: [if s:] holds for the non-empty ones. *)
Definition truthy (s : str) : bool :=
  match s with [] => false | _ => true end.

(** [s[:b] + "..." if len(s) > b else s], the cell expression of
    [display_results]. *)
Definition clip (b : nat) (s : str) : str :=
  if b <? length s then take b s ++ py "..." else s.

(** ** Exceptions

    The script tells three families apart: [KeyboardInterrupt], which no
    [except Exception] clause catches, [requests.RequestException], and
    every other subclass of [Exception]. *)

Inductive exn_class :=
  | KeyboardInterrupt
  | RequestException
  | OSError
  | ValueError
  | KeyError
  | TypeError
  | RuntimeError
  | MarkupError.

Record exn := Exn { exn_kind : exn_class; exn_text : str }.

(** [isinstance(e, Exception)] *)
Definition is_Exception (e : exn) : bool :=
  match exn_kind e with KeyboardInterrupt => false | _ => true end.

(** [isinstance(e, requests.RequestException)] *)
Definition is_RequestException (e : exn) : bool :=
  match exn_kind e with RequestException => true | _ => false end.

(** [isinstance(e, KeyboardInterrupt)] *)
Definition is_KeyboardInterrupt (e : exn) : bool :=
  match exn_kind e with KeyboardInterrupt => true | _ => false end.

Inductive result (A : Type) :=
  | Ok (a : A)
  | Raise (e : exn).
Arguments Ok {A} a.
Arguments Raise {A} e.

#[global] Instance result_ret : MRet result := λ A a, Ok a.
#[global] Instance result_bind : MBind result := λ A B f m,
  match m with
  | Ok a => f a
  | Raise e => Raise e
  end.

(** ** Records

    A record is a [dict] from field names to an [int] or a [str]. *)

Inductive value :=
  | VInt (z : Z)
  | VStr (s : str).

Abbreviation record := (gmap string value).

(** [str(v)] *)
Definition str_of (v : value) : str :=
  match v with
  | VInt z => py (pretty z)
  | VStr s => s
  end.

(** ** The parsed page

    The script reaches the page through four calls of a parsed node:
    [find(name, class_=...)], [find_all(name, class_=...)], [get_text()]
    and [get(key)].  Any of them may raise. *)

Class Soup (node : Type) := {
  find : str → option str → node → result (option node);
  find_all : str → option str → node → result (list node);
  get_text : node → result str;
  get : str → node → result (option str)
}.

(** ** The console

    [console.print] of rich reads a text as markup and raises [MarkupError]
    on a tag it cannot close.  Which texts it refuses, and with which
    error, is the library's: [markup_error s] is the error it raises on the
    text [s], if any. *)

Class Rich := {
  markup_error : str → option exn
}.

(** The early return of rich's renderer: a text with no opening bracket is
    printed as it stands. *)
Definition markup_plain {rich : Rich} : Prop :=
  ∀ s : str, 91%N ∉ s → markup_error s = None.

(** The tree the parser builds: tags with their class list, their other
    attributes and their children; text; and the strings [get_text] leaves
    out (comments and the like).  An absent [class] attribute is the empty
    class list. *)
#[warnings="-register-all"]
Inductive tree :=
  | Tag (name : str) (classes : list str) (attrs : gmap str str)
        (children : list tree)
  | NavigableString (s : str)
  | Comment (s : str).

(** [tag.descendants]: every node below [t], in document order. *)
Fixpoint descendants (t : tree) : list tree :=
  match t with
  | Tag _ _ _ children =>
      (fix go (l : list tree) : list tree :=
         match l with
         | [] => []
         | c :: l' => c :: descendants c ++ go l'
         end) children
  | _ => []
  end.

(** [" ".join(l)] *)
Fixpoint join_space (l : list str) : str :=
  match l with
  | [] => []
  | [s] => s
  | s :: l' => s ++ py " " ++ join_space l'
  end.

(** A [class_] filter holds when one of the classes is the wanted text, or
    the whole attribute is. *)
Definition class_matches (want : option str) (classes : list str) : bool :=
  match want with
  | None => true
  | Some c => bool_decide (c ∈ classes) || bool_decide (join_space classes = c)
  end.

Definition tag_matches (name : str) (want : option str) (t : tree) : bool :=
  match t with
  | Tag n classes _ _ => bool_decide (n = name) && class_matches want classes
  | _ => false
  end.

Definition tree_find_all (name : str) (want : option str) (t : tree)
    : list tree :=
  filter (λ d, tag_matches name want d = true) (descendants t).

Definition tree_find (name : str) (want : option str) (t : tree)
    : option tree :=
  head (tree_find_all name want t).

Definition tree_get_text (t : tree) : str :=
  concat (omap (λ d, match d with NavigableString s => Some s | _ => None end)
            (descendants t)).

Definition tree_get (key : str) (t : tree) : option str :=
  match t with
  | Tag _ _ attrs _ => attrs !! key
  | _ => None
  end.

#[global] Instance tree_soup : Soup tree := {
  find name want t := Ok (tree_find name want t);
  find_all name want t := Ok (tree_find_all name want t);
  get_text t := Ok (tree_get_text t);
  get key t := Ok (tree_get key t)
}.

(** ** The outside world *)

(** [datetime.now()] *)
Record datetime := {
  year : N; month : N; day : N;
  hour : N; minute : N; second : N; microsecond : N
}.

(** ["%0wd" % n] *)
Definition zero_pad (w : nat) (n : N) : str :=
  let digits := py (pretty n) in
  replicate (w - length digits) 48%N ++ digits.

(** [d.isoformat()] *)
Definition isoformat (d : datetime) : str :=
  zero_pad 4 (year d) ++ py "-" ++ zero_pad 2 (month d) ++ py "-"
  ++ zero_pad 2 (day d) ++ py "T" ++ zero_pad 2 (hour d) ++ py ":"
  ++ zero_pad 2 (minute d) ++ py ":" ++ zero_pad 2 (second d)
  ++ (if (microsecond d =? 0)%N then []
      else py "." ++ zero_pad 6 (microsecond d)).

(** [d.strftime("%Y%m%d_%H%M%S")].  The year is written on four digits, as
    the library documents [%Y]; for a year below 1000 the C library behind
    [strftime] decides whether it is padded, and the properties that name
    the time stamp are stated for the years from 1000 on. *)
Definition strftime_compact (d : datetime) : str :=
  zero_pad 4 (year d) ++ zero_pad 2 (month d) ++ zero_pad 2 (day d)
  ++ py "_" ++ zero_pad 2 (hour d) ++ zero_pad 2 (minute d)
  ++ zero_pad 2 (second d).

(** The structured document: the values under its keys. *)
Inductive jvalue :=
  | JInt (z : Z)
  | JStr (s : str)
  | JRecords (l : list record).

Abbreviation document := (gmap string jvalue).

(** What a writer has put into an open file so far: rows of cells for the
    tabular format, one document for the structured one. *)
Inductive chunk :=
  | CsvRow (cells : list str)
  | JsonDoc (doc : document).

(** How the disk refuses a path: at [open], or at the first write after a
    successful [open] (which has already created or emptied the file). *)
Inductive io_fault :=
  | OpenFails (e : exn)
  | WriteFails (e : exn).

(** What the script prints, message by message. *)
Inductive output :=
  | Banner
  | Fetching
  | Found (n : nat)
  | RowError (rank : nat) (e : exn)
  | FetchError (e : exn)
  | UnexpectedError (e : exn)
  | CsvError (e : exn)
  | JsonError (e : exn)
  | NoDevelopers
  | TableShown (columns : list (string * nat)) (rows : list (list str))
  | MoreDevelopers (n : nat)
  | NoData
  | Saving
  | Rule
  | Scraped (n : nat)
  | CsvSaved (path : str)
  | JsonSaved (path : str)
  | SomeFailed
  | Interrupted
  | MainError (e : exn).

(** The state a run reads and changes.  [network], [clock], [makedirs_fault]
    and [disk] are the environment's: the outcome of the one GET (status
    check and parse included), the instants the clock will show, and the
    failures the file system will answer with. *)
Record world (node : Type) := World {
  console : list output;
  files : gmap str (list chunk);
  dirs : gset str;
  ticks : nat;
  clock : nat → datetime;
  network : result node;
  makedirs_fault : option exn;
  disk : str → option io_fault
}.
Arguments World {node}.
Arguments console {node}.
Arguments files {node}.
Arguments dirs {node}.
Arguments ticks {node}.
Arguments clock {node}.
Arguments network {node}.
Arguments makedirs_fault {node}.
Arguments disk {node}.

(** A computation of the script: it may raise, and what it did to the world
    before raising stays done. *)
Definition M (W A : Type) : Type := W → result A * W.

#[global] Instance M_ret {W} : MRet (M W) := λ A a w, (Ok a, w).
#[global] Instance M_bind {W} : MBind (M W) := λ A B f m w,
  match m w with
  | (Ok a, w') => f a w'
  | (Raise e, w') => (Raise e, w')
  end.

(** [raise e] *)
Definition raise {W A} (e : exn) : M W A := λ w, (Raise e, w).

(** A call of a pure library function that may raise. *)
Definition lift {W A} (r : result A) : M W A := λ w, (r, w).

(** [try: body / except C1 as e: h1(e) / except C2 as e: h2(e) ...]: the
    first clause whose class test accepts the exception handles it; an
    exception no clause accepts, or one a handler raises, goes on. *)
Fixpoint dispatch {W A} (clauses : list ((exn → bool) * (exn → M W A)))
    (e : exn) : M W A :=
  match clauses with
  | [] => raise e
  | (C, handler) :: rest => if C e then handler e else dispatch rest e
  end.

Definition try_except {W A} (body : M W A)
    (clauses : list ((exn → bool) * (exn → M W A))) : M W A := λ w,
  match body w with
  | (Ok a, w') => (Ok a, w')
  | (Raise e, w') => dispatch clauses e w'
  end.

Section World.
Context {node : Type}.
Implicit Types w : world node.

Definition set_console (c : list output) w : world node :=
  World c (files w) (dirs w) (ticks w) (clock w) (network w)
    (makedirs_fault w) (disk w).

Definition set_files (f : gmap str (list chunk)) w : world node :=
  World (console w) f (dirs w) (ticks w) (clock w) (network w)
    (makedirs_fault w) (disk w).

Definition set_dirs (d : gset str) w : world node :=
  World (console w) (files w) d (ticks w) (clock w) (network w)
    (makedirs_fault w) (disk w).

Definition set_ticks (n : nat) w : world node :=
  World (console w) (files w) (dirs w) n (clock w) (network w)
    (makedirs_fault w) (disk w).

(** The world after one more message on the console. *)
Definition say (o : output) w : world node :=
  set_console (console w ++ [o]) w.

(** [console.print(...)] and [print(...)] of one of the script's lines.  The
    markup of a line is the script's own and well formed; a line that
    quotes an exception is taken to print, the texts of the exceptions of
    the operating system, of the network and of the parser holding no tag.
    The table, whose cells are the page's, is printed by [print_table]. *)
Definition console_print (o : output) : M (world node) unit := λ w,
  (Ok tt, say o w).

(** [datetime.now()]: the clock shows its next instant. *)
Definition datetime_now : M (world node) datetime := λ w,
  (Ok (clock w (ticks w)), set_ticks (S (ticks w)) w).

(** [requests.get(...)], [raise_for_status()] and the parse of the body. *)
Definition requests_get : M (world node) node := λ w, (network w, w).

(** [os.makedirs(path, exist_ok=True)] *)
Definition os_makedirs (path : str) : M (world node) unit := λ w,
  match makedirs_fault w with
  | Some e => (Raise e, w)
  | None => (Ok tt, set_dirs ({[path]} ∪ dirs w) w)
  end.

(** [open(path, 'w')]: the file is created or emptied. *)
Definition open_w (path : str) : M (world node) unit := λ w,
  match disk w path with
  | Some (OpenFails e) => (Raise e, w)
  | _ => (Ok tt, set_files (<[path := []]> (files w)) w)
  end.

(** One write to the file opened at [path]. *)
Definition write (path : str) (c : chunk) : M (world node) unit := λ w,
  match disk w path with
  | Some (WriteFails e) => (Raise e, w)
  | _ => (Ok tt, set_files (<[path := default [] (files w !! path) ++ [c]]>
                              (files w)) w)
  end.
End World.

(** ** The script *)

Section Script.
Context `{Soup node} {rich : Rich}.

Definition GITHUB_URL : str := py "https://github.com/trending/developers".
Definition OUTPUT_DIR : str := py "data".

Definition setup_directories : M (world node) unit :=
  os_makedirs OUTPUT_DIR.

Definition get_timestamp : M (world node) str :=
  now ← datetime_now; mret (strftime_compact now).

(** [d[key]] *)
Definition item (key : string) (d : record) : result value :=
  match d !! key with
  | Some v => Ok v
  | None => Raise (Exn KeyError (py key))
  end.

(** Truth value of a field. *)
Definition value_truthy (v : value) : bool :=
  match v with
  | VInt z => negb (z =? 0)%Z
  | VStr s => truthy s
  end.

(** An attribute inside an f-string: a missing one prints as [None]. *)
Definition fstring (o : option str) : str :=
  match o with
  | Some s => s
  | None => py "None"
  end.

(** Lines 52-63: [name] and [profile_url]. *)
Definition name_fields (element : node) (developer : record)
    : result record :=
  name_link ← find (py "h1") (Some (py "h3")) element;
  match name_link with
  | Some name_link =>
      link ← find (py "a") None name_link;
      match link with
      | Some link =>
          text ← get_text link;
          let developer := <["name" := VStr (strip text)]> developer in
          href ← get (py "href") link;
          mret (<["profile_url" :=
                    VStr (py "https://github.com" ++ fstring href)]>
                  developer)
      | None =>
          text ← get_text name_link;
          let developer := <["name" := VStr (strip text)]> developer in
          mret (<["profile_url" := VStr []]> developer)
      end
  | None =>
      let developer := <["name" := VStr []]> developer in
      mret (<["profile_url" := VStr []]> developer)
  end.

(** Lines 65-70: [username]. *)
Definition username_field (element : node) (developer : record)
    : result record :=
  username_element ← find (py "p") (Some (py "f4")) element;
  match username_element with
  | Some username_element =>
      username_link ← find (py "a") None username_element;
      match username_link with
      | Some username_link =>
          text ← get_text username_link;
          mret (<["username" := VStr (strip text)]> developer)
      | None => mret (<["username" := VStr []]> developer)
      end
  | None => mret (<["username" := VStr []]> developer)
  end.

(** Lines 72-73: [avatar_url], with [get('src', '')]. *)
Definition avatar_field (element : node) (developer : record)
    : result record :=
  avatar_img ← find (py "img") (Some (py "avatar-user")) element;
  match avatar_img with
  | Some avatar_img =>
      src ← get (py "src") avatar_img;
      mret (<["avatar_url" := VStr (default [] src)]> developer)
  | None => mret (<["avatar_url" := VStr []]> developer)
  end.

(** Lines 75-91: [popular_repo] and [repo_description]. *)
Definition repo_fields (element : node) (developer : record)
    : result record :=
  repo_article ← find (py "article") None element;
  match repo_article with
  | Some repo_article =>
      repo_name_elem ← find (py "h1") (Some (py "h4")) repo_article;
      developer ←
        match repo_name_elem with
        | Some repo_name_elem =>
            repo_link ← find (py "a") None repo_name_elem;
            match repo_link with
            | Some repo_link =>
                text ← get_text repo_link;
                mret (<["popular_repo" := VStr (strip text)]> developer)
            | None =>
                text ← get_text repo_name_elem;
                mret (<["popular_repo" := VStr (strip text)]> developer)
            end
        | None => mret (<["popular_repo" := VStr []]> developer)
        end;
      repo_desc_elem ←
        find (py "div") (Some (py "f6 color-fg-muted mt-1")) repo_article;
      match repo_desc_elem with
      | Some repo_desc_elem =>
          text ← get_text repo_desc_elem;
          mret (<["repo_description" := VStr (strip text)]> developer)
      | None => mret (<["repo_description" := VStr []]> developer)
      end
  | None =>
      let developer := <["popular_repo" := VStr []]> developer in
      mret (<["repo_description" := VStr []]> developer)
  end.

(** Lines 50-91: the fields of row [i] (counted from 0) read off the page. *)
Definition row_fields (i : nat) (element : node) : result record :=
  let developer : record := {["rank" := VInt (Z.of_nat i + 1)]} in
  developer ← name_fields element developer;
  developer ← username_field element developer;
  developer ← avatar_field element developer;
  repo_fields element developer.

(** Lines 93-95: [developer['name'] or developer['username']]. *)
Definition identified (developer : record) : result bool :=
  name ← item "name" developer;
  if value_truthy name then mret true
  else username ← item "username" developer; mret (value_truthy username).

(** Lines 50-95: the body of the [try] of one row.  The list grows only in
    the last statement. *)
Definition parse_element (i : nat) (element : node)
    (developers : list record) : M (world node) (list record) :=
  developer ← lift (row_fields i element);
  keep ← lift (identified developer);
  if keep : bool then
    now ← datetime_now;
    let developer := <["scraped_at" := VStr (isoformat now)]> developer in
    mret (developers ++ [developer])
  else mret developers.

(** Lines 48-99: the loop over [enumerate(developer_elements)]. *)
Fixpoint parse_elements (i : nat) (elements : list node)
    (developers : list record) : M (world node) (list record) :=
  match elements with
  | [] => mret developers
  | element :: rest =>
      developers ←
        try_except (parse_element i element developers)
          [(is_Exception,
            λ e, console_print (RowError (i + 1) e);; mret developers)];
      parse_elements (S i) rest developers
  end.

Definition scrape_trending_developers : M (world node) (list record) :=
  console_print Banner;;
  try_except
    (console_print Fetching;;
     soup ← requests_get;
     developer_elements ←
       lift (find_all (py "article") (Some (py "Box-row")) soup);
     console_print (Found (length developer_elements));;
     parse_elements 0 developer_elements [])
    [(is_RequestException, λ e, console_print (FetchError e);; mret []);
     (is_Exception, λ e, console_print (UnexpectedError e);; mret [])].

Definition fieldnames : list string :=
  ["rank"; "username"; "name"; "repo_description"; "avatar_url";
   "profile_url"; "popular_repo"; "scraped_at"].

(** [repr(key)] for a key whose characters lie below 256: the quote is
    double when the key holds a single quote and no double one; backslash,
    the quote, and what does not print are escaped. *)
Definition repr_char (quote c : N) : str :=
  let hex (n : N) : N := if (n <? 10)%N then (48 + n)%N else (87 + n)%N in
  if (c =? 92)%N then [92; 92]%N
  else if (c =? quote)%N then [92%N; quote]
  else if (c =? 10)%N then [92; 110]%N
  else if (c =? 13)%N then [92; 114]%N
  else if (c =? 9)%N then [92; 116]%N
  else if ((32 <=? c) && (c <=? 126) || (161 <=? c) && negb (c =? 173))%N
       then [c]
  else [92%N; 120%N; hex (c `div` 16)%N; hex (c `mod` 16)%N].

Definition repr_str (s : str) : str :=
  let quote : N :=
    if bool_decide (39%N ∈ s) && negb (bool_decide (34%N ∈ s)) then 34%N
    else 39%N in
  [quote] ++ concat (repr_char quote <$> s) ++ [quote].

(** [", ".join(l)] *)
Fixpoint join_comma (l : list str) : str :=
  match l with
  | [] => []
  | [s] => s
  | s :: l' => s ++ py ", " ++ join_comma l'
  end.

(** [csv.DictWriter._dict_to_list]: a key outside [fieldnames] is an
    error that names the offending keys (in the order of their set, which
    Python does not fix when there are several), a missing one an empty
    cell. *)
Definition dict_to_list (rowdict : record) : result (list str) :=
  if decide (dom rowdict ⊆ list_to_set fieldnames) then
    Ok (map (λ key, from_option str_of [] (rowdict !! key)) fieldnames)
  else
    let wrong_fields := elements (dom rowdict ∖ list_to_set fieldnames) in
    Raise (Exn ValueError
             (py "dict contains fields not in fieldnames: "
              ++ join_comma ((λ key, repr_str (py key)) <$> wrong_fields))).

(** [writer.writerows(rowdicts)] *)
Fixpoint writerows (filename : str) (rowdicts : list record)
    : M (world node) unit :=
  match rowdicts with
  | [] => mret tt
  | rowdict :: rest =>
      cells ← lift (dict_to_list rowdict);
      write filename (CsvRow cells);;
      writerows filename rest
  end.

Definition save_to_csv (developers : list record) (filename : str)
    : M (world node) bool :=
  match developers with
  | [] => mret false
  | _ =>
      try_except
        (open_w filename;;
         write filename (CsvRow (map py fieldnames));;
         writerows filename developers;;
         mret true)
        [(is_Exception, λ e, console_print (CsvError e);; mret false)]
  end.

Definition save_to_json (developers : list record) (filename : str)
    : M (world node) bool :=
  match developers with
  | [] => mret false
  | _ =>
      now ← datetime_now;
      let data : document :=
        <["developers" := JRecords developers]>
          (<["total_developers" := JInt (Z.of_nat (length developers))]>
             {["scraped_at" := JStr (isoformat now)]}) in
      try_except
        (open_w filename;;
         write filename (JsonDoc data);;
         mret true)
        [(is_Exception, λ e, console_print (JsonError e);; mret false)]
  end.

(** [json.load] of the file at [filename]. *)
Definition json_load (filename : str) (w : world node) : option document :=
  match files w !! filename with
  | Some [JsonDoc data] => Some data
  | _ => None
  end.

(** [dev[key][:b] + "..." if len(dev[key]) > b else dev[key]] *)
Definition cell (b : nat) (key : string) (dev : record) : result str :=
  v ← item key dev;
  match v with
  | VStr s => Ok (clip b s)
  | VInt _ => Raise (Exn TypeError (py "object of type 'int' has no len()"))
  end.

(** Lines 159-165: the cells of one row of the table. *)
Definition table_row (dev : record) : result (list str) :=
  rank ← item "rank" dev;
  username ← cell 18 "username" dev;
  name ← cell 23 "name" dev;
  popular_repo ← cell 23 "popular_repo" dev;
  repo_description ← cell 28 "repo_description" dev;
  mret [str_of rank; username; name; popular_repo; repo_description].

(** Lines 151-156: the columns of the table and the widths they are
    declared with. *)
Definition table_columns : list (string * nat) :=
  [("Rank", 6); ("Username", 20); ("Name", 25); ("Popular Repo", 25);
   ("Repo Desc", 30)].

(** The cells of the table in the order they are measured: column by
    column, each from the first row down. *)
Definition cells_by_column (rows : list (list str)) : list str :=
  concat ((λ j, omap (λ row : list str, row !! j) rows)
            <$> seq 0 (length table_columns)).

(** Line 167, [console.print(table)]: the cells are read as markup, and the
    first one that cannot be rendered makes the call raise before anything
    is drawn. *)
Definition print_table (rows : list (list str)) : M (world node) unit := λ w,
  match head (omap markup_error (cells_by_column rows)) with
  | Some e => (Raise e, w)
  | None => (Ok tt, say (TableShown table_columns rows) w)
  end.

Definition display_results (developers : list record)
    : M (world node) unit :=
  match developers with
  | [] => console_print NoDevelopers
  | _ =>
      rows ← lift (mapM table_row (take 10 developers));
      print_table rows;;
      if 10 <? length developers
      then console_print (MoreDevelopers (length developers - 10))
      else mret tt
  end.

(** [os.path.join(OUTPUT_DIR, f"github_trending_developers_{timestamp}.ext")] *)
Definition output_path (timestamp ext : str) : str :=
  OUTPUT_DIR ++ py "/" ++ py "github_trending_developers_" ++ timestamp
  ++ ext.

(** Lines 172-208.  The last handler prints the error that reached it.
    When that error is the console's refusal of the table, its line quotes
    the refused tag, and what rich makes of that line is not followed: the
    properties of a run that shows a table are stated for the tables the
    console can draw. *)
Definition main : M (world node) unit :=
  try_except
    (setup_directories;;
     developers ← scrape_trending_developers;
     match developers with
     | [] => console_print NoData
     | _ =>
         timestamp ← get_timestamp;
         let csv_filename := output_path timestamp (py ".csv") in
         let json_filename := output_path timestamp (py ".json") in
         console_print Saving;;
         csv_saved ← save_to_csv developers csv_filename;
         json_saved ← save_to_json developers json_filename;
         console_print Rule;;
         display_results developers;;
         console_print (Scraped (length developers));;
         (if csv_saved : bool then console_print (CsvSaved csv_filename)
          else mret tt);;
         (if json_saved : bool then console_print (JsonSaved json_filename)
          else mret tt);;
         if negb csv_saved || negb json_saved
         then console_print SomeFailed
         else mret tt
     end)
    [(is_KeyboardInterrupt, λ _, console_print Interrupted);
     (is_Exception, λ e, console_print (MainError e))].
End Script.

(** ** Vocabulary of the properties *)

(** A text with no white space at either end. *)
Definition trimmed (s : str) : Prop :=
  (∀ c, head s = Some c → isspace c = false) ∧
  (∀ c, last s = Some c → isspace c = false).

(** [s] is [t] with white space removed at the two ends and nothing else
    changed. *)
Definition edge_trim_of (t s : str) : Prop :=
  ∃ before after,
    t = before ++ s ++ after ∧
    Forall (λ c, isspace c = true) before ∧
    Forall (λ c, isspace c = true) after ∧
    trimmed s.

(** The cell the table is handed for the text [s] under the budget [b]. *)
Definition rendered (b : nat) (s shown : str) : Prop :=
  (b < length s → shown = take b s ++ py "..." ∧ length shown = b + 3) ∧
  (length s ≤ b → shown = s).

(** The table of the first ten of [developers] can be drawn: the console
    refuses none of its cells. *)
Definition table_renders {rich : Rich} (developers : list record) : Prop :=
  ∀ rows, mapM table_row (take 10 developers) = Ok rows →
    omap markup_error (cells_by_column rows) = [].

(** The eight field names of a record. *)
Definition record_keys : gset string :=
  {["rank"; "name"; "username"; "profile_url"; "avatar_url"; "popular_repo";
    "repo_description"; "scraped_at"]}.

(** A fully formed record: the eight fields and no other, an integer rank
    and text everywhere else. *)
Definition well_formed (d : record) : Prop :=
  dom d = record_keys ∧
  (∃ z, d !! "rank" = Some (VInt z)) ∧
  (∀ key, key ∈ record_keys → key ≠ "rank" → ∃ s, d !! key = Some (VStr s)).

(** The fields of a row in the order lines 50-91 assign them. *)
Definition assemble (i : nat) (name url username src repo description : str)
    : record :=
  <["repo_description" := VStr description]>
    (<["popular_repo" := VStr repo]>
       (<["avatar_url" := VStr src]>
          (<["username" := VStr username]>
             (<["profile_url" := VStr url]>
                (<["name" := VStr name]>
                   {["rank" := VInt (Z.of_nat i + 1)]}))))).

(** A record with a name or a handle. *)
Definition named (d : record) : Prop :=
  (∃ s, d !! "name" = Some (VStr s) ∧ s ≠ []) ∨
  (∃ s, d !! "username" = Some (VStr s) ∧ s ≠ []).

Section Candidates.
Context `{Soup node}.

(** A text the row takes from the page: the text of a node (or the empty
    text of a fallback), trimmed at the edges. *)
Definition scraped_text (s : str) : Prop :=
  ∃ t, s = strip t ∧ (t = [] ∨ ∃ n : node, get_text n = Ok t).


(** Row [j] yields its fields and passes the test of line 93. *)
Definition retained (j : nat) (element : node) : bool :=
  match row_fields j element with
  | Ok d => match identified d with Ok keep => keep | Raise _ => false end
  | Raise _ => false
  end.

(** Position [j] of the listing holds a retained row. *)
Definition retained_at (elements : list node) (j : nat) : bool :=
  from_option (retained j) false (elements !! j).

(** No row of the listing, numbered from [i], is cut short by an exception
    outside [Exception]. *)
Fixpoint uninterrupted (i : nat) (elements : list node) : bool :=
  match elements with
  | [] => true
  | element :: rest =>
      match row_fields i element with
      | Ok _ => true
      | Raise e => is_Exception e
      end && uninterrupted (S i) rest
  end.
(** Position [j] of a listing numbered from [i] holds a retained row. *)
Definition retained_from (i : nat) (elements : list node) (j : nat) : bool :=
  from_option (retained j) false (elements !! (j - i)).

(** The record [d] is what the row at position [j] of a listing numbered
    from [i] leaves in the output. *)
Definition record_of_row (i : nat) (elements : list node) (d : record)
    (j : nat) : Prop :=
  ∃ element d0 stamp,
    i ≤ j ∧ elements !! (j - i) = Some element ∧
    row_fields j element = Ok d0 ∧ identified d0 = Ok true ∧
    d = <["scraped_at" := VStr stamp]> d0.

(** The record [d] of the output is what the row at position [j] of the
    listing left there: its fields, found identifiable, and the instant of
    capture. *)
Definition row_yields (elements : list node) (d : record) (j : nat) : Prop :=
  ∃ element d0 stamp,
    elements !! j = Some element ∧
    row_fields j element = Ok d0 ∧ identified d0 = Ok true ∧
    d = <["scraped_at" := VStr stamp]> d0.

(** The positions of the listing whose rows are retained, in order. *)
Definition retained_positions (elements : list node) : list nat :=
  filter (λ j, retained_at elements j = true) (seq 0 (length elements)).

(** The two [except] clauses of [scrape_trending_developers]. *)
Definition scrape_clauses
    : list ((exn → bool) * (exn → M (world node) (list record))) :=
  [(is_RequestException, λ e, console_print (FetchError e);; mret []);
   (is_Exception, λ e, console_print (UnexpectedError e);; mret [])].
End Candidates.

(** Between [w] and [w'] the run has only printed and read the clock. *)
Definition only_talked {node} (w w' : world node) : Prop :=
  files w' = files w ∧ dirs w' = dirs w ∧ clock w' = clock w ∧
  network w' = network w ∧ makedirs_fault w' = makedirs_fault w ∧
  disk w' = disk w ∧ ∃ extra, console w' = console w ++ extra.

(** From [w] to [w'] the run has at most printed, read the clock and
    written the file at [path]. *)
Definition touches {node} (path : str) (w w' : world node) : Prop :=
  disk w' = disk w ∧ clock w' = clock w ∧
  (∀ p, p ≠ path → files w' !! p = files w !! p) ∧
  ∃ extra, console w' = console w ++ extra.

(** The exception, if any, behind a fault of the disk. *)
Definition fault_exn (f : io_fault) : exn :=
  match f with
  | OpenFails e => e
  | WriteFails e => e
  end.

(** Every failure the disk of [w] can answer with is an [Exception]. *)
Definition io_failures_only {node} (w : world node) : Prop :=
  ∀ path f, disk w path = Some f → is_Exception (fault_exn f) = true.

(** The line the tabular writer makes of a record: a cell per column, in
    the order of [fieldnames], empty where the record has no such key. *)
Definition csv_line (d : record) : chunk :=
  CsvRow ((λ key, from_option str_of [] (d !! key)) <$> fieldnames).

(** A path [main] may write to: a tabular or a structured file of some run. *)
Definition is_output_path (p : str) : Prop :=
  ∃ timestamp,
    p = output_path timestamp (py ".csv") ∨
    p = output_path timestamp (py ".json").

(** From [w] to [w'] no file outside [paths] was created, emptied or
    written. *)
Definition leaves_alone {node} (paths : str → Prop) (w w' : world node)
    : Prop :=
  ∀ p, ¬ paths p → files w' !! p = files w !! p.

(** The computation [m], whatever its outcome, writes inside [paths] only. *)
Definition frames {node A} (paths : str → Prop) (m : M (world node) A)
    : Prop :=
  ∀ w, leaves_alone paths w (m w).2.

(** Records without their instant of capture. *)
Definition unstamped (developers : list record) : list record :=
  delete "scraped_at" <$> developers.

(** Two outcomes of the extractor that agree up to the instants of capture:
    the same records in the same order, or the same exception. *)
Definition same_outcome (r1 r2 : result (list record)) : Prop :=
  match r1, r2 with
  | Ok developers1, Ok developers2 =>
      unstamped developers1 = unstamped developers2
  | Raise e1, Raise e2 => e1 = e2
  | _, _ => False
  end.

(** The closing lines of a run whose writers answered [csv_saved] and
    [json_saved]. *)
Definition closing_lines (n : nat) (csv_saved json_saved : bool)
    (csv_filename json_filename : str) : list output :=
  [Scraped n]
  ++ (if csv_saved then [CsvSaved csv_filename] else [])
  ++ (if json_saved then [JsonSaved json_filename] else [])
  ++ (if negb csv_saved || negb json_saved then [SomeFailed] else []).

(** ** A page whose nodes may fail

    A handle on a parsed node that is either sound or broken: every call on
    a broken one raises.  The handler around each row exists for these. *)

Inductive flaky :=
  | Sound (t : tree)
  | Broken (e : exn).

#[global] Instance flaky_soup : Soup flaky := {
  find name want n :=
    match n with
    | Sound t => Ok (Sound <$> tree_find name want t)
    | Broken e => Raise e
    end;
  find_all name want n :=
    match n with
    | Sound t => Ok (Sound <$> tree_find_all name want t)
    | Broken e => Raise e
    end;
  get_text n :=
    match n with
    | Sound t => Ok (tree_get_text t)
    | Broken e => Raise e
    end;
  get key n :=
    match n with
    | Sound t => Ok (tree_get key t)
    | Broken e => Raise e
    end
}.

(** ** Sample data *)

Module Sample.
(** The text up to the first closing bracket, when no opening bracket comes
    before it. *)
Fixpoint tag_body (s : str) : option str :=
  match s with
  | [] => None
  | c :: s' =>
      if (c =? 93)%N then Some []
      else if (c =? 91)%N then None
      else cons c <$> tag_body s'
  end.

(** [s.partition("=")[0]] *)
Fixpoint before_equals (s : str) : str :=
  match s with
  | [] => []
  | c :: s' => if (c =? 61)%N then [] else c :: before_equals s'
  end.

(** A console that knows one rule of rich's markup: a text that opens with
    a closing tag, as [[/b]] or [[/]], has nothing to close. *)
Definition closing_tag_first (s : str) : option exn :=
  match s with
  | c :: c' :: s' =>
      if (c =? 91)%N && (c' =? 47)%N then
        match tag_body s' with
        | Some body =>
            Some (Exn MarkupError
                    (match strip (before_equals body) with
                     | [] =>
                         py "closing tag '[/]' at position 0 has nothing to close"
                     | _ =>
                         py "closing tag '[/" ++ body
                         ++ py "]' at position 0 doesn't match any open tag"
                     end))
        | None => None
        end
      else None
  | _ => None
  end.

Definition renderer : Rich := {| markup_error := closing_tag_first |}.

Definition tag (name : string) (classes : list string)
    (attrs : list (string * string)) (children : list tree) : tree :=
  Tag (py name) (py <$> classes)
    (list_to_map ((λ kv, (py kv.1, py kv.2)) <$> attrs)) children.

Definition text (s : string) : tree := NavigableString (py s).

(** A listing row as the trending page lays it out. *)
Definition row (name handle : string) : tree :=
  tag "article" ["Box-row"; "d-flex"] [] [
    tag "img" ["avatar-user"] [("src", " https://avatars/" +:+ handle)] [];
    tag "h1" ["h3"; "lh-condensed"] []
      [tag "a" [] [("href", "/" +:+ handle)] [text ("  " +:+ name +:+ " ")]];
    tag "p" ["f4"; "text-normal"] [] [tag "a" [] [] [text handle]];
    tag "article" [] [] [
      tag "h1" ["h4"] [] [tag "a" [] [] [text " repo "]];
      tag "div" ["f6"; "color-fg-muted"; "mt-1"] [] [text " a  tool "]]].

(** A row with neither heading nor handle. *)
Definition anonymous : tree := tag "article" ["Box-row"] [] [text "sponsor"].

(** A row whose heading carries no link. *)
Definition unlinked : tree :=
  tag "article" ["Box-row"] [] [tag "h1" ["h3"] [] [text " Dee "]].

Definition rows : list tree :=
  [row "Ann" "ann"; row "Bob" "bob"; anonymous; row "Cy" "cy"].

Definition page : tree := tag "html" [] [] [tag "body" [] [] rows].

Definition instant : datetime :=
  {| year := 2024; month := 5; day := 17;
     hour := 9; minute := 30; second := 0; microsecond := 0 |}.

Definition start {node} (net : result node) (faults : str → option io_fault)
    : world node :=
  World [] ∅ ∅ 0 (λ _, instant) net None faults.

Definition online : world tree := start (Ok page) (λ _, None).



Definition denied : exn := Exn OSError (py "Permission denied").

Definition csv_path : str :=
  py "data/github_trending_developers_20240517_093000.csv".

(** A disk that refuses the tabular file only. *)
Definition csv_refused : world tree :=
  start (Ok page)
    (λ path, if decide (path = csv_path) then Some (OpenFails denied)
             else None).

(** A record whose handle is 19 characters long. *)
Definition long_handle : record :=
  <["rank" := VInt 1]>
    (<["username" := VStr (replicate 19 97%N)]>
       (<["name" := VStr (py "Ann")]>
          (<["popular_repo" := VStr (py "repo")]>
             {["repo_description" := VStr (py "a tool")]}))).

Definition ann : record :=
  <["rank" := VInt 1]>
    (<["name" := VStr (py "Ann")]>
       (<["profile_url" := VStr (py "https://github.com/ann")]>
          (<["username" := VStr (py "ann")]>
             (<["avatar_url" := VStr (py "https://avatars/ann")]>
                (<["popular_repo" := VStr (py "repo")]>
                   (<["repo_description" := VStr (py "a tool")]>
                      {["scraped_at" := VStr (py "2024-05-17T09:30:00")]})))))).

Definition json_path : str := py "out.json".

(** What the first row of the sample listing yields. *)
Definition ann_fields : record :=
  assemble 0 (py "Ann") (py "https://github.com/ann") (py "ann")
    (py " https://avatars/ann") (py "repo") (py "a  tool").

(** What the row without a link in its heading yields. *)
Definition dee_fields : record :=
  assemble 0 (py "Dee") [] [] [] [] [].

Definition blank : world tree := start (Ok page) (λ _, None).

Definition parse_failure : exn := Exn RuntimeError (py "detached node").

(** A listing whose first row fails when queried. *)
Definition brittle_rows : list flaky :=
  [Broken parse_failure; Sound (row "Ann" "ann")].

Definition brittle : world flaky :=
  start (Ok (Broken parse_failure)) (λ _, None).

(** A file of the user's, next to the output directory. *)
Definition notes : str := py "notes.txt".

(** A world in which the output directory cannot be made. *)
Definition read_only : world tree :=
  World [] ∅ ∅ 0 (λ _, instant) (Ok page) (Some denied) (λ _, None).

Definition ctrl_c : exn := Exn KeyboardInterrupt [].

(** A world in which the user interrupts the fetch. *)
Definition interrupted : world tree := start (Raise ctrl_c) (λ _, None).

(** A page that lists nobody. *)
Definition empty_page : tree := tag "html" [] [] [tag "body" [] [] [anonymous]].

Definition nobody : world tree := start (Ok empty_page) (λ _, None).

(** A row whose heading is blank and which has no handle. *)
Definition blank_heading : tree :=
  tag "article" ["Box-row"] [] [tag "h1" ["h3"] [] [text "  "]].

Definition bob : record :=
  <["rank" := VInt 2]>
    (<["name" := VStr (py "Bob")]>
       (<["profile_url" := VStr (py "https://github.com/bob")]>
          (<["username" := VStr (py "bob")]>
             (<["avatar_url" := VStr (py "https://avatars/bob")]>
                (<["popular_repo" := VStr (py "repo")]>
                   (<["repo_description" := VStr (py "a tool")]>
                      {["scraped_at" := VStr (py "2024-05-17T09:30:00")]})))))).

(** A record with no rank. *)
Definition unranked : record := {["name" := VStr (py "Eve")]}.

(** A disk that refuses every path at [open]. *)
Definition full_disk : world tree :=
  start (Ok page) (λ _, Some (OpenFails denied)).

(** The same page seen at another time, with a console already in use. *)
Definition later : world tree :=
  World [Banner] ∅ ∅ 7
    (λ n, {| year := 2025; month := 1; day := 1; hour := 0; minute := 0;
             second := N.of_nat n; microsecond := 1 |})
    (Ok page) None (λ _, None).
End Sample.

(** ** More sample data: edge cases of the writers and of the listing *)

Module Cases.
(** A record with a key the tabular format has no column for. *)
Definition tagged : record := <["note" := VStr (py "sponsor")]> Sample.bob.

(** A disk that accepts every [open] and refuses every write. *)
Definition stalled : world tree :=
  Sample.start (Ok Sample.page) (λ _, Some (WriteFails Sample.denied)).

(** A listing in which every row is retained. *)
Definition full_rows : list tree :=
  [Sample.row "Ann" "ann"; Sample.row "Bob" "bob"].

(** A row whose heading link carries no [href]. *)
Definition no_href : tree :=
  Sample.tag "article" ["Box-row"] []
    [Sample.tag "h1" ["h3"] [] [Sample.tag "a" [] [] [Sample.text "Zed"]]].

(** A fully formed record whose handle is 19 characters long, one more
    than the 18 its cell is cut at. *)
Definition wide : record :=
  <["username" := VStr (replicate 19 97%N)]> Sample.ann.

(** A fully formed record whose name is a closing tag. *)
Definition closing_name : record :=
  <["name" := VStr (py "[/b]")]> Sample.ann.

(** A listing whose second row is interrupted by the user. *)
Definition interrupted_rows : list flaky :=
  [Sound (Sample.row "Ann" "ann"); Broken Sample.ctrl_c;
   Sound (Sample.row "Bob" "bob")].
End Cases.

(** * Properties *)

(** ** Text *)

Lemma lstrip_split (s : str) :
  ∃ before, s = before ++ lstrip s ∧ Forall (λ c, isspace c = true) before.
Proof.
  induction s as [|c s IH]; simpl.
  - by exists [].
  - destruct (isspace c) eqn:Hc.
    + destruct IH as (before & Hs & Hb).
      exists (c :: before). split; [simpl; congruence|by constructor].
    + by exists [].
Qed.

Lemma lstrip_head (s : str) (c : N) :
  head (lstrip s) = Some c → isspace c = false.
Proof.
  induction s as [|c' s IH]; simpl; [done|].
  destruct (isspace c') eqn:Hc; [done|].
  simpl. congruence.
Qed.

Lemma rstrip_split (s : str) :
  ∃ after, s = rstrip s ++ after ∧ Forall (λ c, isspace c = true) after.
Proof.
  destruct (lstrip_split (reverse s)) as (before & Hs & Hb).
  exists (reverse before). split.
  - unfold rstrip. rewrite <-reverse_app, <-Hs. by rewrite reverse_involutive.
  - by apply Forall_reverse.
Qed.

Lemma rstrip_last (s : str) (c : N) :
  last (rstrip s) = Some c → isspace c = false.
Proof. unfold rstrip. rewrite last_reverse. apply lstrip_head. Qed.

Lemma rstrip_head (s : str) (c : N) :
  head (rstrip s) = Some c → head s = Some c.
Proof.
  destruct (rstrip_split s) as (after & Hs & _). intros Hc.
  rewrite Hs, head_app. by rewrite Hc.
Qed.

Lemma strip_edge_trim (t : str) : edge_trim_of t (strip t).
Proof.
  destruct (lstrip_split t) as (before & Ht & Hb).
  destruct (rstrip_split (lstrip t)) as (after & Hl & Ha).
  exists before, after. repeat split; try done.
  - unfold strip. by rewrite <-Hl.
  - intros c Hc. apply rstrip_head in Hc. by apply lstrip_head in Hc.
  - apply rstrip_last.
Qed.

Lemma strip_nil : strip [] = [].
Proof. reflexivity. Qed.

Lemma clip_rendered (b : nat) (s : str) : rendered b s (clip b s).
Proof.
  unfold rendered, clip. split; intros Hlen.
  - apply Nat.ltb_lt in Hlen as Hb. rewrite Hb. split; [done|].
    rewrite length_app, length_take_le by lia. simpl. lia.
  - destruct (b <? length s) eqn:Hb; [|done].
    apply Nat.ltb_lt in Hb. lia.
Qed.

(** ** The preview table *)

Lemma cell_text (b : nat) (key : string) (dev : record) (s : str) :
  dev !! key = Some (VStr s) → cell b key dev = Ok (clip b s).
Proof. intros Hs. unfold cell, item. by rewrite Hs. Qed.

Lemma table_row_run (dev : record) (rank : value)
    (username name popular_repo repo_description : str) :
  dev !! "rank" = Some rank →
  dev !! "username" = Some (VStr username) →
  dev !! "name" = Some (VStr name) →
  dev !! "popular_repo" = Some (VStr popular_repo) →
  dev !! "repo_description" = Some (VStr repo_description) →
  table_row dev =
  Ok [str_of rank; clip 18 username; clip 23 name; clip 23 popular_repo;
      clip 28 repo_description].
Proof.
  intros Hrank Hu Hn Hp Hr.
  unfold table_row, item. rewrite Hrank. simpl.
  by rewrite (cell_text _ _ _ _ Hu), (cell_text _ _ _ _ Hn),
    (cell_text _ _ _ _ Hp), (cell_text _ _ _ _ Hr).
Qed.

(** The cells of a row: a text longer than the cut [b] of its column
    (handle 18, name 23, featured item 23, description 28) is handed to the
    table as its first [b] characters followed by the three-character
    ellipsis, a text of at most [b] characters unmodified. *)
Lemma table_row_cells (dev : record) (rank : value)
    (username name popular_repo repo_description : str) :
  dev !! "rank" = Some rank →
  dev !! "username" = Some (VStr username) →
  dev !! "name" = Some (VStr name) →
  dev !! "popular_repo" = Some (VStr popular_repo) →
  dev !! "repo_description" = Some (VStr repo_description) →
  ∃ u n p r,
    table_row dev = Ok [str_of rank; u; n; p; r] ∧
    rendered 18 username u ∧
    rendered 23 name n ∧
    rendered 23 popular_repo p ∧
    rendered 28 repo_description r.
Proof.
  intros Hrank Hu Hn Hp Hr.
  exists (clip 18 username), (clip 23 name), (clip 23 popular_repo),
    (clip 28 repo_description).
  split; [by apply table_row_run|auto using clip_rendered].
Qed.

(** C1: the code cuts a text at its budget and only then appends the
    ellipsis.  For a record whose handle has 19 characters, one more than
    the budget of 18, the cell the Reporter hands to the table is the first
    18 characters followed by the ellipsis: 21 characters, where the claim
    allows 18 in all, and one more than the 20 the column is declared
    with. *)
Theorem handle_cell_overruns_column :
  ∃ handle shown,
    Cases.wide !! "username" = Some (VStr handle) ∧
    length handle = 19 ∧
    display_results (rich := Sample.renderer) [Cases.wide] Sample.blank =
      (Ok tt,
       say (TableShown table_columns
              [[py "1"; shown; py "Ann"; py "repo"; py "a tool"]])
         Sample.blank) ∧
    shown = take 18 handle ++ py "..." ∧
    length shown = 21 ∧
    table_columns !! 1 = Some ("Username", 20).
Proof.
  exists (replicate 19 97%N), (replicate 18 97%N ++ py "...").
  repeat split; vm_compute; reflexivity.
Qed.

(** ** One row *)

(** Case analysis on the outcome of every library call met in [H], the
    innermost first. *)
Ltac break_call H r :=
  lazymatch r with
  | context [match _ with Ok _ => _ | Raise _ => _ end] => fail
  | _ =>
      first [destruct r as [[?|]|?] eqn:? | destruct r as [?|?] eqn:?];
      cbv beta iota in H; try discriminate H
  end.

Ltac break_calls H :=
  unfold mbind, result_bind, mret, result_ret in H;
  cbv beta iota in H;
  repeat match type of H with
    | context [match ?r with Ok _ => _ | Raise _ => _ end] => break_call H r
    end.

Section Row.
Context `{Soup node}.

Lemma scraped_text_node (n : node) (t : str) :
  get_text n = Ok t → scraped_text (strip t).
Proof. intros Ht. exists t. eauto. Qed.

Lemma scraped_text_nil : scraped_text [].
Proof. exists []. eauto. Qed.

Lemma scraped_text_trimmed (s : str) : scraped_text s → trimmed s.
Proof.
  intros (t & -> & _). by destruct (strip_edge_trim t) as (? & ? & ? & ? & ? & ?).
Qed.

Lemma name_fields_ok (element : node) (dev d : record) :
  name_fields element dev = Ok d →
  ∃ name url,
    d = <["profile_url" := VStr url]> (<["name" := VStr name]> dev) ∧
    scraped_text name.
Proof.
  unfold name_fields. intros Hd. break_calls Hd;
    injection Hd as <-; do 2 eexists; split; try reflexivity;
    eauto using scraped_text_node, scraped_text_nil.
Qed.

Lemma username_field_ok (element : node) (dev d : record) :
  username_field element dev = Ok d →
  ∃ username, d = <["username" := VStr username]> dev ∧ scraped_text username.
Proof.
  unfold username_field. intros Hd. break_calls Hd;
    injection Hd as <-; eexists; split; try reflexivity;
    eauto using scraped_text_node, scraped_text_nil.
Qed.

Lemma avatar_field_ok (element : node) (dev d : record) :
  avatar_field element dev = Ok d →
  ∃ src, d = <["avatar_url" := VStr src]> dev.
Proof.
  unfold avatar_field. intros Hd. break_calls Hd;
    injection Hd as <-; eexists; reflexivity.
Qed.

Lemma repo_fields_ok (element : node) (dev d : record) :
  repo_fields element dev = Ok d →
  ∃ repo description,
    d = <["repo_description" := VStr description]>
          (<["popular_repo" := VStr repo]> dev) ∧
    scraped_text repo ∧ scraped_text description.
Proof.
  unfold repo_fields. intros Hd. break_calls Hd;
    injection Hd as <-; do 2 eexists; (split; [reflexivity|]);
    eauto using scraped_text_node, scraped_text_nil.
Qed.
End Row.

Section Assemble.
Context (i : nat) (name url username src repo description stamp : str).
Let d := assemble i name url username src repo description.

Lemma assemble_rank : d !! "rank" = Some (VInt (Z.of_nat i + 1)).
Proof. reflexivity. Qed.
Lemma assemble_name : d !! "name" = Some (VStr name).
Proof. reflexivity. Qed.
Lemma assemble_profile_url : d !! "profile_url" = Some (VStr url).
Proof. reflexivity. Qed.
Lemma assemble_username : d !! "username" = Some (VStr username).
Proof. reflexivity. Qed.
Lemma assemble_avatar_url : d !! "avatar_url" = Some (VStr src).
Proof. reflexivity. Qed.
Lemma assemble_popular_repo : d !! "popular_repo" = Some (VStr repo).
Proof. reflexivity. Qed.
Lemma assemble_repo_description :
  d !! "repo_description" = Some (VStr description).
Proof. reflexivity. Qed.

Lemma assemble_identified :
  identified d = Ok (truthy name || truthy username).
Proof.
  unfold identified, item. rewrite assemble_name, assemble_username.
  simpl. by destruct (truthy name).
Qed.

Lemma stamped_well_formed :
  well_formed (<["scraped_at" := VStr stamp]> d).
Proof.
  split; [|split].
  - unfold d, assemble, record_keys.
    rewrite !dom_insert_L, dom_singleton_L. set_solver.
  - exists (Z.of_nat i + 1)%Z. reflexivity.
  - intros key Hkey Hrank. unfold record_keys in Hkey.
    repeat (apply elem_of_union in Hkey as [Hkey|Hkey]);
      apply elem_of_singleton in Hkey as ->;
      first [done | eexists; reflexivity].
Qed.

Lemma stamped_lookup (key : string) :
  key ≠ "scraped_at" →
  (<["scraped_at" := VStr stamp]> d) !! key = d !! key.
Proof. intros Hkey. by rewrite lookup_insert_ne. Qed.
End Assemble.

Section RowFields.
Context `{Soup node}.

Lemma row_fields_ok (i : nat) (element : node) (d : record) :
  row_fields i element = Ok d →
  ∃ name url username src repo description,
    d = assemble i name url username src repo description ∧
    scraped_text (node := node) name ∧ scraped_text (node := node) username ∧
    scraped_text (node := node) repo ∧
    scraped_text (node := node) description.
Proof.
  unfold row_fields. intros Hd.
  destruct (name_fields element _) as [d1|] eqn:H1; [|done].
  apply name_fields_ok in H1 as (name & url & -> & Hname).
  cbn in Hd.
  destruct (username_field element _) as [d2|] eqn:H2; [|done].
  apply username_field_ok in H2 as (username & -> & Husername).
  cbn in Hd.
  destruct (avatar_field element _) as [d3|] eqn:H3; [|done].
  apply avatar_field_ok in H3 as (src & ->).
  cbn in Hd.
  apply repo_fields_ok in Hd as (repo & description & -> & Hrepo & Hdesc).
  by exists name, url, username, src, repo, description.
Qed.

(** Rows that yield their fields always get an answer from the test of
    line 93. *)
Lemma row_fields_identified (i : nat) (element : node) (d : record) :
  row_fields i element = Ok d → ∃ keep, identified d = Ok keep.
Proof.
  intros (? & ? & ? & ? & ? & ? & -> & _)%row_fields_ok.
  rewrite assemble_identified. eauto.
Qed.

Lemma retained_ok (j : nat) (element : node) :
  retained j element = true ↔
  ∃ d, row_fields j element = Ok d ∧ identified d = Ok true.
Proof.
  unfold retained. split.
  - destruct (row_fields j element) as [d|]; [|done].
    destruct (identified d) as [[]|] eqn:Hkeep; try done. eauto.
  - by intros (d & -> & ->).
Qed.

(** What one pass through the body of the row's [try] does. *)
Lemma parse_element_run (i : nat) (element : node)
    (developers : list record) (w : world node) :
  parse_element i element developers w =
  match row_fields i element with
  | Raise e => (Raise e, w)
  | Ok d =>
      if retained i element
      then (Ok (developers ++
                  [<["scraped_at" := VStr (isoformat (clock w (ticks w)))]>
                     d]),
            set_ticks (S (ticks w)) w)
      else (Ok developers, w)
  end.
Proof.
  unfold parse_element, retained, mbind, M_bind, lift.
  destruct (row_fields i element) as [d|e] eqn:Hd; [|done].
  destruct (row_fields_identified _ _ _ Hd) as [[] ->]; reflexivity.
Qed.

(** One turn of the loop. *)
Lemma parse_elements_cons (i : nat) (element : node) (rest : list node)
    (developers : list record) (w : world node) :
  parse_elements i (element :: rest) developers w =
  match parse_element i element developers w with
  | (Ok developers', w') => parse_elements (S i) rest developers' w'
  | (Raise e, w') =>
      if is_Exception e
      then parse_elements (S i) rest developers (say (RowError (i + 1) e) w')
      else (Raise e, w')
  end.
Proof.
  cbn [parse_elements]. unfold mbind at 1, M_bind at 1, try_except.
  destruct (parse_element i element developers w) as [[d|e] w']; [done|].
  cbn [dispatch]. destruct (is_Exception e); reflexivity.
Qed.
End RowFields.

(** ** The loop over the rows *)

Lemma only_talked_refl {node} (w : world node) : only_talked w w.
Proof. repeat split. exists []. by rewrite app_nil_r. Qed.

Lemma only_talked_trans {node} (w1 w2 w3 : world node) :
  only_talked w1 w2 → only_talked w2 w3 → only_talked w1 w3.
Proof.
  unfold only_talked.
  intros (?&?&?&?&?&?& x1 & Hx1) (?&?&?&?&?&?& x2 & Hx2).
  repeat split; try congruence.
  exists (x1 ++ x2). by rewrite Hx2, Hx1, app_assoc.
Qed.

Lemma only_talked_say {node} (o : output) (w : world node) :
  only_talked w (say o w).
Proof. repeat split. by exists [o]. Qed.

Lemma only_talked_ticks {node} (n : nat) (w : world node) :
  only_talked w (set_ticks n w).
Proof. repeat split. exists []. cbn. by rewrite app_nil_r. Qed.

Lemma filter_ext_in {A} (P Q : A → Prop) `{!∀ x, Decision (P x)}
    `{!∀ x, Decision (Q x)} (l : list A) :
  (∀ x, x ∈ l → P x ↔ Q x) → filter P l = filter Q l.
Proof.
  induction l as [|x l IH]; intros HPQ; [done|].
  rewrite !filter_cons.
  rewrite IH by (intros; apply HPQ; by right).
  destruct (decide (P x)) as [HP|HP], (decide (Q x)) as [HQ|HQ];
    try done; exfalso; apply (HPQ x) in HP || apply (HPQ x) in HQ;
    done || by left.
Qed.

Section Loop.
Context `{Soup node}.

Lemma retained_from_tail (i : nat) (element : node) (rest : list node) :
  filter (λ j, retained_from i (element :: rest) j = true)
    (seq (S i) (length rest)) =
  filter (λ j, retained_from (S i) rest j = true) (seq (S i) (length rest)).
Proof.
  apply filter_ext_in. intros j [Hj _]%elem_of_seq.
  unfold retained_from. by replace (j - i) with (S (j - S i)) by lia.
Qed.

Lemma retained_from_head (i : nat) (element : node) (rest : list node) :
  retained_from i (element :: rest) i = retained i element.
Proof. unfold retained_from. by rewrite Nat.sub_diag. Qed.

Lemma record_of_row_tail (i : nat) (element : node) (rest : list node)
    (d : record) (j : nat) :
  record_of_row (S i) rest d j → record_of_row i (element :: rest) d j.
Proof.
  intros (el & d0 & stamp & Hj & Hel & Hrest).
  exists el, d0, stamp. split; [lia|]. split; [|done].
  by replace (j - i) with (S (j - S i)) by lia.
Qed.

Lemma parse_elements_spec (elements : list node) :
  ∀ (i : nat) (developers : list record) (w : world node),
    uninterrupted i elements = true →
    ∃ new w',
      parse_elements i elements developers w = (Ok (developers ++ new), w') ∧
      only_talked w w' ∧
      Forall2 (record_of_row i elements) new
        (filter (λ j, retained_from i elements j = true)
           (seq i (length elements))).
Proof.
  induction elements as [|element rest IH]; intros i developers w Hrun.
  - exists [], w. rewrite app_nil_r. by split; [|split; [apply only_talked_refl|]].
  - cbn [uninterrupted] in Hrun. apply andb_true_iff in Hrun as [Hrow Hrest].
    rewrite parse_elements_cons, parse_element_run.
    cbn [length seq]. rewrite filter_cons, retained_from_tail.
    destruct (row_fields i element) as [d0|e] eqn:Hd0.
    + destruct (retained i element) eqn:Hkeep.
      * destruct (IH (S i) (developers ++
          [<["scraped_at" := VStr (isoformat (clock w (ticks w)))]> d0])
          (set_ticks (S (ticks w)) w) Hrest) as (new & w' & Hloop & Hw & Hnew).
        exists (<["scraped_at" := VStr (isoformat (clock w (ticks w)))]> d0
                :: new), w'.
        rewrite Hloop, <-app_assoc. split; [done|].
        split; [eauto using only_talked_trans, only_talked_ticks|].
        rewrite decide_True by (by rewrite retained_from_head). constructor.
        -- apply retained_ok in Hkeep as (d1 & Hd1 & Hid).
           exists element, d0, (isoformat (clock w (ticks w))).
           rewrite Nat.sub_diag. rewrite Hd0 in Hd1. injection Hd1 as <-.
           by repeat split.
        -- eapply Forall2_impl; [done|]. eauto using record_of_row_tail.
      * destruct (IH (S i) developers w Hrest) as (new & w' & Hloop & Hw & Hnew).
        exists new, w'.
        rewrite decide_False by (by rewrite retained_from_head, Hkeep).
        repeat split; try done; try apply Hw.
        eapply Forall2_impl; [done|]. eauto using record_of_row_tail.
    + rewrite Hrow.
      assert (retained i element = false) as Hkeep
        by (unfold retained; by rewrite Hd0).
      rewrite decide_False by (by rewrite retained_from_head, Hkeep).
      destruct (IH (S i) developers (say (RowError (i + 1) e) w) Hrest)
        as (new & w' & Hloop & Hw & Hnew).
      exists new, w'. split; [done|].
      split; [eauto using only_talked_trans, only_talked_say|].
      eapply Forall2_impl; [done|]. eauto using record_of_row_tail.
Qed.
End Loop.

Section Ranks.
Context `{Soup node}.

Lemma retained_positions_from (elements : list node) :
  filter (λ j, retained_from 0 elements j = true) (seq 0 (length elements))
  = retained_positions elements.
Proof.
  apply list_filter_iff. intros j.
  unfold retained_from, retained_at. by rewrite Nat.sub_0_r.
Qed.

Lemma record_of_row_yields (elements : list node) (d : record) (j : nat) :
  record_of_row 0 elements d j → row_yields elements d j.
Proof.
  intros (element & d0 & stamp & _ & Hel & Hrest).
  rewrite Nat.sub_0_r in Hel. by exists element, d0, stamp.
Qed.

Lemma row_yields_rank (elements : list node) (d : record) (j : nat) :
  row_yields elements d j → d !! "rank" = Some (VInt (Z.of_nat j + 1)).
Proof.
  intros (element & d0 & stamp & _ & Hd0 & _ & ->).
  apply row_fields_ok in Hd0 as (? & ? & ? & ? & ? & ? & -> & _).
  reflexivity.
Qed.

Lemma row_yields_retained (elements : list node) (d : record) (j : nat) :
  row_yields elements d j →
  ∃ element, elements !! j = Some element ∧ retained j element = true.
Proof.
  intros (element & d0 & stamp & Hel & Hd0 & Hid & _).
  exists element. split; [done|]. apply retained_ok. eauto.
Qed.

Lemma row_yields_named (elements : list node) (d : record) (j : nat) :
  row_yields elements d j → named d.
Proof.
  intros (element & d0 & stamp & _ & Hd0 & Hid & ->).
  apply row_fields_ok in Hd0 as (name & ? & username & ? & ? & ? & -> & _).
  rewrite assemble_identified in Hid. injection Hid as Hid.
  apply orb_true_iff in Hid as [Hid|Hid]; [left; exists name|right; exists username];
    (split; [reflexivity|by intros ->]).
Qed.

Lemma parse_elements_from_start (elements : list node) (w : world node) :
  uninterrupted 0 elements = true →
  ∃ developers w',
    parse_elements 0 elements [] w = (Ok developers, w') ∧
    only_talked w w' ∧
    Forall2 (row_yields elements) developers (retained_positions elements).
Proof.
  intros Hrun.
  destruct (parse_elements_spec elements 0 [] w Hrun)
    as (developers & w' & Hloop & Hw & Hrows).
  exists developers, w'. repeat split; try done; try apply Hw.
  rewrite <-retained_positions_from.
  eapply Forall2_impl; [done|]. apply record_of_row_yields.
Qed.

(** C2: whatever the listing, the loop over its rows ends (no row being
    interrupted) with records whose rank is the 1-based position of their
    row in the listing as extracted: the ranks of the output are the
    positions of the retained rows, in order, so a discarded row leaves the
    rank of every other record as it was. *)
Theorem rank_is_original_position (elements : list node) (w : world node) :
  uninterrupted 0 elements = true →
  ∃ developers w',
    parse_elements 0 elements [] w = (Ok developers, w') ∧
    (∀ k d, developers !! k = Some d →
       ∃ j element,
         elements !! j = Some element ∧ retained j element = true ∧
         d !! "rank" = Some (VInt (Z.of_nat j + 1))) ∧
    (λ d : record, d !! "rank") <$> developers =
      (λ j, Some (VInt (Z.of_nat j + 1))) <$> retained_positions elements.
Proof.
  intros Hrun.
  destruct (parse_elements_from_start elements w Hrun)
    as (developers & w' & Hloop & _ & Hrows).
  exists developers, w'. split; [done|]. split.
  - intros k d Hk.
    destruct (Forall2_lookup_l _ _ _ _ _ Hrows Hk) as (j & _ & Hj).
    destruct (row_yields_retained _ _ _ Hj) as (element & Hel & Hkeep).
    exists j, element. eauto using row_yields_rank.
  - clear Hloop.
    induction Hrows as [|d j ds positions Hdj _ IH]; [done|].
    rewrite !fmap_cons. f_equal; [|exact IH]. eauto using row_yields_rank.
Qed.
End Ranks.

Lemma rank_is_original_position_sample :
  uninterrupted 0 Sample.rows = true ∧
  ∃ developers w',
    parse_elements 0 Sample.rows [] Sample.online = (Ok developers, w') ∧
    (∀ k d, developers !! k = Some d →
       ∃ j element,
         Sample.rows !! j = Some element ∧ retained j element = true ∧
         d !! "rank" = Some (VInt (Z.of_nat j + 1))) ∧
    (λ d : record, d !! "rank") <$> developers =
      (λ j, Some (VInt (Z.of_nat j + 1))) <$> retained_positions Sample.rows.
Proof.
  split; [reflexivity|].
  apply (rank_is_original_position Sample.rows Sample.online). reflexivity.
Defined.

(** Four rows, the third without name or handle: ranks 1, 2 and 4. *)
Example sample_ranks :
  match (parse_elements 0 Sample.rows [] Sample.online).1 with
  | Ok developers => (λ d : record, d !! "rank") <$> developers
  | Raise _ => []
  end = [Some (VInt 1); Some (VInt 2); Some (VInt 4)].
Proof. vm_compute. reflexivity. Qed.

(** ** The extractor *)

Section Extractor.
Context `{Soup node}.

(** A page that was fetched and searched: the run goes into the loop. *)
Lemma scrape_run (w : world node) (soup : node) (elements : list node) :
  network w = Ok soup →
  find_all (py "article") (Some (py "Box-row")) soup = Ok elements →
  scrape_trending_developers w =
  match parse_elements 0 elements []
          (say (Found (length elements)) (say Fetching (say Banner w))) with
  | (Ok developers, w') => (Ok developers, w')
  | (Raise e, w') => dispatch scrape_clauses e w'
  end.
Proof.
  intros Hnet Hall.
  unfold scrape_trending_developers, try_except, mbind, M_bind,
    console_print, requests_get, lift.
  cbn [network say set_console]. rewrite Hnet, Hall. reflexivity.
Qed.

(** A fetch that raised: the clause of its class answers. *)
Lemma scrape_fetch_raises (w : world node) (e : exn) :
  network w = Raise e →
  scrape_trending_developers w =
  dispatch scrape_clauses e (say Fetching (say Banner w)).
Proof.
  intros Hnet.
  unfold scrape_trending_developers, try_except, mbind, M_bind,
    console_print, requests_get, lift.
  cbn [network say set_console]. rewrite Hnet. reflexivity.
Qed.

Lemma retained_nameless (j : nat) (element : node) (d0 : record) :
  row_fields j element = Ok d0 →
  d0 !! "name" = Some (VStr []) → d0 !! "username" = Some (VStr []) →
  retained j element = false.
Proof.
  intros Hd0 Hname Huser. unfold retained, identified, item.
  by rewrite Hd0, Hname, Huser.
Qed.

(** C3: whatever page was fetched, the extractor (no row being
    interrupted) returns records that each have a non-empty name or a
    non-empty handle; they are the records of the retained rows, one per
    retained position and in the order of the listing; a row whose name
    and handle are both empty is not among them. *)
Theorem retained_records_are_named (w : world node) (soup : node)
    (elements : list node) :
  network w = Ok soup →
  find_all (py "article") (Some (py "Box-row")) soup = Ok elements →
  uninterrupted 0 elements = true →
  ∃ developers w',
    scrape_trending_developers w = (Ok developers, w') ∧
    Forall named developers ∧
    Forall2 (row_yields elements) developers (retained_positions elements) ∧
    (∀ j element d0,
       elements !! j = Some element → row_fields j element = Ok d0 →
       d0 !! "name" = Some (VStr []) → d0 !! "username" = Some (VStr []) →
       j ∉ retained_positions elements).
Proof.
  intros Hnet Hall Hrun.
  destruct (parse_elements_from_start elements
              (say (Found (length elements)) (say Fetching (say Banner w)))
              Hrun) as (developers & w' & Hloop & _ & Hrows).
  exists developers, w'. split; [|split; [|split]].
  - by rewrite (scrape_run _ _ _ Hnet Hall), Hloop.
  - clear Hloop. induction Hrows; constructor; eauto using row_yields_named.
  - done.
  - intros j element d0 Hel Hd0 Hname Huser.
    unfold retained_positions. rewrite list_elem_of_filter.
    unfold retained_at. rewrite Hel. cbn [from_option].
    rewrite (retained_nameless _ _ _ Hd0 Hname Huser). by intros [? _].
Qed.
End Extractor.

Lemma retained_records_are_named_sample :
  ∃ developers w',
    scrape_trending_developers Sample.online = (Ok developers, w') ∧
    Forall named developers ∧
    Forall2 (row_yields Sample.rows) developers
      (retained_positions Sample.rows) ∧
    (∀ j element d0,
       Sample.rows !! j = Some element → row_fields j element = Ok d0 →
       d0 !! "name" = Some (VStr []) → d0 !! "username" = Some (VStr []) →
       j ∉ retained_positions Sample.rows).
Proof.
  apply (retained_records_are_named Sample.online Sample.page Sample.rows);
    reflexivity.
Defined.

(** In the sample listing the rows at positions 0, 1 and 3 are retained. *)
Example sample_positions : retained_positions Sample.rows = [0; 1; 3].
Proof. vm_compute. reflexivity. Qed.

(** ** The fields of a row *)

Section Fields.
Context `{Soup node}.

Lemma row_fields_split (i : nat) (element : node) (d : record) :
  row_fields i element = Ok d →
  ∃ d1 d2 d3,
    name_fields element {["rank" := VInt (Z.of_nat i + 1)]} = Ok d1 ∧
    username_field element d1 = Ok d2 ∧
    avatar_field element d2 = Ok d3 ∧
    repo_fields element d3 = Ok d.
Proof.
  unfold row_fields. intros Hd.
  destruct (name_fields element _) as [d1|] eqn:H1; [|done]. cbn in Hd.
  destruct (username_field element _) as [d2|] eqn:H2; [|done]. cbn in Hd.
  destruct (avatar_field element _) as [d3|] eqn:H3; [|done]. cbn in Hd.
  by exists d1, d2, d3.
Qed.

(** The later assignments leave [name] and [profile_url] alone. *)
Lemma row_fields_name (i : nat) (element : node) (d d1 : record) :
  row_fields i element = Ok d →
  name_fields element {["rank" := VInt (Z.of_nat i + 1)]} = Ok d1 →
  d !! "name" = d1 !! "name" ∧ d !! "profile_url" = d1 !! "profile_url".
Proof.
  intros (d1' & d2 & d3 & H1 & H2 & H3 & H4)%row_fields_split Hd1.
  rewrite H1 in Hd1. injection Hd1 as ->.
  apply username_field_ok in H2 as (? & -> & _).
  apply avatar_field_ok in H3 as (? & ->).
  apply repo_fields_ok in H4 as (? & ? & -> & _).
  by rewrite !lookup_insert_ne.
Qed.

Lemma row_fields_avatar (i : nat) (element : node) (d : record) :
  row_fields i element = Ok d →
  ∃ d2 d3,
    avatar_field element d2 = Ok d3 ∧ d !! "avatar_url" = d3 !! "avatar_url".
Proof.
  intros (d1 & d2 & d3 & _ & _ & H3 & H4)%row_fields_split.
  exists d2, d3. split; [done|].
  apply repo_fields_ok in H4 as (? & ? & -> & _).
  by rewrite !lookup_insert_ne.
Qed.

Lemma row_fields_texts (i : nat) (element : node) (d : record) (key : string) :
  row_fields i element = Ok d →
  key ∈ ["name"; "username"; "popular_repo"; "repo_description"] →
  ∃ s, d !! key = Some (VStr s) ∧ scraped_text (node := node) s.
Proof.
  intros (name & url & username & src & repo & description & -> & Hn & Hu
          & Hr & Hd)%row_fields_ok Hkey.
  repeat (apply elem_of_cons in Hkey as [->|Hkey]);
    [by exists name|by exists username|by exists repo|by exists description|].
  by apply elem_of_nil in Hkey.
Qed.

(** C8, amended: when the heading of a row holds a hyperlink that carries
    an [href], lines 52-63 give the name the link's text with the white
    space at its two ends removed, and the profile link the origin followed
    by the [href] as it stands; when the heading holds no hyperlink the
    name is the heading's own text, trimmed the same way, and the profile
    link is empty; with no heading both are empty.  Lines 52-63 assign the
    two fields whatever the rest of the row holds, and the record of the
    row, when the rest of the row yields one, carries them unchanged. *)
Theorem heading_gives_name_and_profile (i : nat) (element : node) :
  let developer : record := {["rank" := VInt (Z.of_nat i + 1)]} in
  (∀ heading link text href,
     find (py "h1") (Some (py "h3")) element = Ok (Some heading) →
     find (py "a") None heading = Ok (Some link) →
     get_text link = Ok text →
     get (py "href") link = Ok (Some href) →
     name_fields element developer =
       Ok (<["profile_url" := VStr (py "https://github.com" ++ href)]>
             (<["name" := VStr (strip text)]> developer)) ∧
     edge_trim_of text (strip text) ∧
     ∀ d, row_fields i element = Ok d →
       d !! "name" = Some (VStr (strip text)) ∧
       d !! "profile_url" = Some (VStr (py "https://github.com" ++ href))) ∧
  (∀ heading text,
     find (py "h1") (Some (py "h3")) element = Ok (Some heading) →
     find (py "a") None heading = Ok None →
     get_text heading = Ok text →
     name_fields element developer =
       Ok (<["profile_url" := VStr []]>
             (<["name" := VStr (strip text)]> developer)) ∧
     edge_trim_of text (strip text) ∧
     ∀ d, row_fields i element = Ok d →
       d !! "name" = Some (VStr (strip text)) ∧
       d !! "profile_url" = Some (VStr [])) ∧
  (find (py "h1") (Some (py "h3")) element = Ok None →
   name_fields element developer =
     Ok (<["profile_url" := VStr []]> (<["name" := VStr []]> developer)) ∧
   ∀ d, row_fields i element = Ok d →
     d !! "name" = Some (VStr []) ∧ d !! "profile_url" = Some (VStr [])).
Proof.
  intros developer. split; [|split].
  - intros heading link text href Hheading Hlink Htext Hhref.
    assert (name_fields element developer =
              Ok (<["profile_url" := VStr (py "https://github.com" ++ href)]>
                    (<["name" := VStr (strip text)]> developer))) as Hname.
    { unfold name_fields. rewrite Hheading. cbn.
      rewrite Hlink. cbn. rewrite Htext. cbn. rewrite Hhref. reflexivity. }
    split; [exact Hname|]. split; [apply strip_edge_trim|].
    intros d Hd. by destruct (row_fields_name _ _ _ _ Hd Hname) as [-> ->].
  - intros heading text Hheading Hlink Htext.
    assert (name_fields element developer =
              Ok (<["profile_url" := VStr []]>
                    (<["name" := VStr (strip text)]> developer))) as Hname.
    { unfold name_fields. rewrite Hheading. cbn.
      rewrite Hlink. cbn. rewrite Htext. reflexivity. }
    split; [exact Hname|]. split; [apply strip_edge_trim|].
    intros d Hd. by destruct (row_fields_name _ _ _ _ Hd Hname) as [-> ->].
  - intros Hheading.
    assert (name_fields element developer =
              Ok (<["profile_url" := VStr []]>
                    (<["name" := VStr []]> developer))) as Hname.
    { unfold name_fields. rewrite Hheading. reflexivity. }
    split; [exact Hname|].
    intros d Hd. by destruct (row_fields_name _ _ _ _ Hd Hname) as [-> ->].
Qed.
End Fields.

(** C8, as the spec words it, fails: the name is not the link's text but
    that text trimmed (the sample link reads "  Ann ", the name is "Ann");
    and a hyperlink need not carry an [href], in which case the profile
    link is the origin followed by the word [None], there being no [href]
    to follow it. *)
Lemma heading_link_text_and_href :
  (∃ heading link text d,
     find (py "h1") (Some (py "h3")) (Sample.row "Ann" "ann")
       = Ok (Some heading) ∧
     find (py "a") None heading = Ok (Some link) ∧
     get_text link = Ok text ∧
     row_fields 0 (Sample.row "Ann" "ann") = Ok d ∧
     d !! "name" = Some (VStr (py "Ann")) ∧
     d !! "name" ≠ Some (VStr text)) ∧
  (∃ heading link d,
     find (py "h1") (Some (py "h3")) Cases.no_href = Ok (Some heading) ∧
     find (py "a") None heading = Ok (Some link) ∧
     get (py "href") link = Ok None ∧
     row_fields 0 Cases.no_href = Ok d ∧
     d !! "profile_url" = Some (VStr (py "https://github.comNone"))).
Proof.
  split.
  - eexists _, _, _, _.
    split; [reflexivity|]. split; [reflexivity|]. split; [reflexivity|].
    split; [reflexivity|]. split; [reflexivity|]. discriminate.
  - eexists _, _, _.
    split; [reflexivity|]. split; [reflexivity|]. split; [reflexivity|].
    split; reflexivity.
Qed.

Lemma heading_gives_name_and_profile_sample :
  (row_fields 0 (Sample.row "Ann" "ann") = Ok Sample.ann_fields ∧
   Sample.ann_fields !! "name" = Some (VStr (strip (py "  Ann "))) ∧
   Sample.ann_fields !! "profile_url"
     = Some (VStr (py "https://github.com" ++ py "/ann"))) ∧
  (row_fields 0 Sample.unlinked = Ok Sample.dee_fields ∧
   Sample.dee_fields !! "name" = Some (VStr (strip (py " Dee "))) ∧
   Sample.dee_fields !! "profile_url" = Some (VStr [])) ∧
  (row_fields 0 Sample.anonymous = Ok (assemble 0 [] [] [] [] [] []) ∧
   assemble 0 [] [] [] [] [] [] !! "name" = Some (VStr []) ∧
   assemble 0 [] [] [] [] [] [] !! "profile_url" = Some (VStr [])).
Proof.
  split; [|split]; (split; [reflexivity|]).
  - refine (proj2 (proj2
              (proj1 (heading_gives_name_and_profile 0 (Sample.row "Ann" "ann"))
                 (Sample.tag "h1" ["h3"; "lh-condensed"] []
                    [Sample.tag "a" [] [("href", "/ann")]
                       [Sample.text "  Ann "]])
                 (Sample.tag "a" [] [("href", "/ann")] [Sample.text "  Ann "])
                 (py "  Ann ") (py "/ann") _ _ _ _))
              Sample.ann_fields _);
      reflexivity.
  - refine (proj2 (proj2
              (proj1 (proj2 (heading_gives_name_and_profile 0 Sample.unlinked))
                 (Sample.tag "h1" ["h3"] [] [Sample.text " Dee "])
                 (py " Dee ") _ _ _))
              Sample.dee_fields _);
      reflexivity.
  - refine (proj2
              (proj2 (proj2 (heading_gives_name_and_profile 0 Sample.anonymous))
                 _)
              (assemble 0 [] [] [] [] [] []) _);
      reflexivity.
Defined.

(** The three shapes of a heading on the sample rows: a link, no link, no
    heading. *)
Example sample_headings :
  row_fields 0 (Sample.row "Ann" "ann") = Ok Sample.ann_fields ∧
  row_fields 0 Sample.unlinked = Ok Sample.dee_fields ∧
  row_fields 0 Sample.anonymous = Ok (assemble 0 [] [] [] [] [] []).
Proof. repeat split; vm_compute; reflexivity. Qed.

(** C7, as the spec words it, fails: the [src] of the avatar is copied as it
    stands, so an attribute written with a leading blank reaches the record
    with it. *)
Lemma avatar_link_keeps_edge_space :
  ∃ d s,
    row_fields 0 (Sample.row "Ann" "ann") = Ok d ∧
    d !! "avatar_url" = Some (VStr s) ∧
    ¬ trimmed s.
Proof.
  exists Sample.ann_fields, (py " https://avatars/ann").
  split; [reflexivity|]. split; [reflexivity|].
  intros [Hhead _]. by specialize (Hhead 32%N eq_refl).
Qed.

Section Trimming.
Context `{Soup node}.

(** C7, amended: in the record of a row the four fields read off the text
    of a node (name, handle, featured item name and description) carry
    that text with the white space at its two ends removed and nothing
    else changed; the avatar link is the [src] attribute as it stands and
    the profile link is the origin followed by the [href] as it stands,
    neither of them trimmed. *)
Theorem text_fields_are_edge_trimmed (i : nat) (element : node)
    (d : record) :
  row_fields i element = Ok d →
  (∀ key, key ∈ ["name"; "username"; "popular_repo"; "repo_description"] →
     ∃ t s,
       d !! key = Some (VStr s) ∧
       (t = [] ∨ ∃ n : node, get_text n = Ok t) ∧
       edge_trim_of t s) ∧
  (∀ img src,
     find (py "img") (Some (py "avatar-user")) element = Ok (Some img) →
     get (py "src") img = Ok (Some src) →
     d !! "avatar_url" = Some (VStr src)) ∧
  (∀ heading link href,
     find (py "h1") (Some (py "h3")) element = Ok (Some heading) →
     find (py "a") None heading = Ok (Some link) →
     get (py "href") link = Ok (Some href) →
     d !! "profile_url" = Some (VStr (py "https://github.com" ++ href))).
Proof.
  intros Hd. split; [|split].
  - intros key Hkey.
    destruct (row_fields_texts _ _ _ _ Hd Hkey) as (s & Hs & t & -> & Ht).
    exists t, (strip t). eauto using strip_edge_trim.
  - intros img src Himg Hsrc.
    destruct (row_fields_avatar _ _ _ Hd) as (d2 & d3 & Hd3 & ->).
    unfold avatar_field in Hd3. rewrite Himg in Hd3. cbn in Hd3.
    rewrite Hsrc in Hd3. injection Hd3 as <-. by rewrite lookup_insert_eq.
  - intros heading link href Hheading Hlink Hhref.
    destruct (row_fields_split _ _ _ Hd) as (d1 & _ & _ & Hd1 & _).
    destruct (row_fields_name _ _ _ _ Hd Hd1) as [_ ->].
    unfold name_fields in Hd1. rewrite Hheading in Hd1. cbn in Hd1.
    rewrite Hlink in Hd1. cbn in Hd1.
    destruct (get_text link) as [text|]; [|done]. cbn in Hd1.
    rewrite Hhref in Hd1. injection Hd1 as <-. by rewrite lookup_insert_eq.
Qed.
End Trimming.

Lemma text_fields_are_edge_trimmed_sample :
  row_fields 0 (Sample.row "Ann" "ann") = Ok Sample.ann_fields ∧
  (∀ key, key ∈ ["name"; "username"; "popular_repo"; "repo_description"] →
     ∃ t s,
       Sample.ann_fields !! key = Some (VStr s) ∧
       (t = [] ∨ ∃ n : tree, get_text n = Ok t) ∧
       edge_trim_of t s) ∧
  (∀ img src,
     find (py "img") (Some (py "avatar-user")) (Sample.row "Ann" "ann")
       = Ok (Some img) →
     get (py "src") img = Ok (Some src) →
     Sample.ann_fields !! "avatar_url" = Some (VStr src)) ∧
  (∀ heading link href,
     find (py "h1") (Some (py "h3")) (Sample.row "Ann" "ann")
       = Ok (Some heading) →
     find (py "a") None heading = Ok (Some link) →
     get (py "href") link = Ok (Some href) →
     Sample.ann_fields !! "profile_url"
       = Some (VStr (py "https://github.com" ++ href))).
Proof.
  split; [reflexivity|].
  apply (text_fields_are_edge_trimmed 0 (Sample.row "Ann" "ann")).
  reflexivity.
Defined.

(** ** The writers *)

(** Reading a field of a world that was just updated. *)
Ltac world_simpl :=
  cbn [console files dirs ticks clock network makedirs_fault disk
       set_console set_files set_dirs set_ticks say].

Section Writers.
Context {node : Type}.
Implicit Types w : world node.

(** C4: given no record, the tabular writer and the structured writer both
    answer failure at once and leave the world as it was: no file is
    opened, created or written at the path. *)
Theorem writers_refuse_empty (filename : str) w :
  save_to_csv [] filename w = (Ok false, w) ∧
  save_to_json [] filename w = (Ok false, w).
Proof. split; reflexivity. Qed.

Lemma open_w_run (path : str) w :
  open_w path w =
  match disk w path with
  | Some (OpenFails e) => (Raise e, w)
  | _ => (Ok tt, set_files (<[path := []]> (files w)) w)
  end.
Proof. reflexivity. Qed.

Lemma write_run (path : str) (c : chunk) w :
  write path c w =
  match disk w path with
  | Some (WriteFails e) => (Raise e, w)
  | _ => (Ok tt, set_files (<[path := default [] (files w !! path) ++ [c]]>
                              (files w)) w)
  end.
Proof. reflexivity. Qed.

(** The structured writer on a path the disk accepts. *)
Lemma save_to_json_writes (developers : list record) (filename : str) w :
  developers ≠ [] → disk w filename = None →
  save_to_json developers filename w =
  (Ok true,
   set_files
     (<[filename :=
          [JsonDoc
             (<["developers" := JRecords developers]>
                (<["total_developers" :=
                     JInt (Z.of_nat (length developers))]>
                   {["scraped_at" :=
                       JStr (isoformat (clock w (ticks w)))]}))]]>
        (files w))
     (set_ticks (S (ticks w)) w)).
Proof.
  intros Hne Hdisk. destruct developers as [|d ds]; [done|].
  unfold save_to_json, try_except, mbind, M_bind, mret, M_ret, datetime_now.
  rewrite open_w_run. world_simpl. rewrite Hdisk. cbv beta iota.
  rewrite write_run. world_simpl. rewrite Hdisk.
  rewrite lookup_insert_eq, insert_insert_eq. reflexivity.
Qed.
End Writers.

Section Structured.
Context {node : Type}.
Implicit Types w : world node.

(** C6: given at least one record and a path the disk accepts, the
    structured writer succeeds and leaves at the path one document whose
    keys are [scraped_at], [total_developers] and [developers]; the count
    under [total_developers] is the length of the array under
    [developers], and that array, read back, is the sequence of records
    passed in, in the same order. *)
Theorem structured_document_round_trip (developers : list record)
    (filename : str) w :
  developers ≠ [] → disk w filename = None →
  ∃ w' doc stamp,
    save_to_json developers filename w = (Ok true, w') ∧
    json_load filename w' = Some doc ∧
    dom doc = {["scraped_at"; "total_developers"; "developers"]} ∧
    doc !! "scraped_at" = Some (JStr stamp) ∧
    doc !! "total_developers" = Some (JInt (Z.of_nat (length developers))) ∧
    doc !! "developers" = Some (JRecords developers).
Proof.
  intros Hne Hdisk. do 3 eexists.
  split; [by apply save_to_json_writes|].
  unfold json_load. world_simpl. rewrite lookup_insert_eq.
  split; [reflexivity|]. split; [|by repeat split].
  rewrite !dom_insert_L, dom_singleton_L. set_solver.
Qed.
End Structured.

Lemma structured_document_round_trip_sample :
  ∃ w' doc stamp,
    save_to_json [Sample.ann] Sample.json_path Sample.blank = (Ok true, w') ∧
    json_load Sample.json_path w' = Some doc ∧
    dom doc = {["scraped_at"; "total_developers"; "developers"]} ∧
    doc !! "scraped_at" = Some (JStr stamp) ∧
    doc !! "total_developers" = Some (JInt (Z.of_nat (length [Sample.ann]))) ∧
    doc !! "developers" = Some (JRecords [Sample.ann]).
Proof.
  apply (structured_document_round_trip [Sample.ann] Sample.json_path
           Sample.blank); [discriminate | reflexivity].
Defined.

(** ** Running the steps of a computation *)

Lemma bind_ok {W A B} (m : M W A) (f : A → M W B) (w w' : W) (a : A) :
  m w = (Ok a, w') → (m ≫= f) w = f a w'.
Proof. intros Hm. unfold mbind, M_bind. by rewrite Hm. Qed.

Lemma bind_raise {W A B} (m : M W A) (f : A → M W B) (w w' : W) (e : exn) :
  m w = (Raise e, w') → (m ≫= f) w = (Raise e, w').
Proof. intros Hm. unfold mbind, M_bind. by rewrite Hm. Qed.

Lemma try_ok {W A} (body : M W A) clauses (w w' : W) (a : A) :
  body w = (Ok a, w') → try_except body clauses w = (Ok a, w').
Proof. intros Hm. unfold try_except. by rewrite Hm. Qed.

Lemma try_raise {W A} (body : M W A) clauses (w w' : W) (e : exn) :
  body w = (Raise e, w') → try_except body clauses w = dispatch clauses e w'.
Proof. intros Hm. unfold try_except. by rewrite Hm. Qed.

Section Touches.
Context {node : Type}.
Implicit Types w : world node.

Lemma touches_refl (path : str) w : touches path w w.
Proof. repeat split. exists []. by rewrite app_nil_r. Qed.

Lemma touches_trans (path : str) w1 w2 w3 :
  touches path w1 w2 → touches path w2 w3 → touches path w1 w3.
Proof.
  intros (Hd1 & Hc1 & Hf1 & x1 & Hx1) (Hd2 & Hc2 & Hf2 & x2 & Hx2).
  repeat split; try congruence.
  - intros p Hp. by rewrite Hf2, Hf1.
  - exists (x1 ++ x2). by rewrite Hx2, Hx1, app_assoc.
Qed.

Lemma touches_say (path : str) (o : output) w : touches path w (say o w).
Proof. repeat split. by exists [o]. Qed.

Lemma touches_ticks (path : str) (n : nat) w :
  touches path w (set_ticks n w).
Proof. repeat split. exists []. world_simpl. by rewrite app_nil_r. Qed.

Lemma touches_file (path : str) (content : list chunk) w :
  touches path w (set_files (<[path := content]> (files w)) w).
Proof.
  repeat split.
  - intros p Hp. world_simpl. by rewrite lookup_insert_ne.
  - exists []. world_simpl. by rewrite app_nil_r.
Qed.

Lemma only_talked_touches (path : str) w w' :
  only_talked w w' → touches path w w'.
Proof.
  intros (Hf & _ & Hc & _ & _ & Hd & Hconsole).
  repeat split; try done. intros p _. by rewrite Hf.
Qed.

Lemma open_w_touches (path : str) w r w' :
  open_w path w = (r, w') → touches path w w'.
Proof.
  rewrite open_w_run. destruct (disk w path) as [[e|e]|];
    intros [= <- <-]; auto using touches_refl, touches_file.
Qed.

Lemma write_touches (path : str) (c : chunk) w r w' :
  write path c w = (r, w') → touches path w w'.
Proof.
  rewrite write_run. destruct (disk w path) as [[e|e]|];
    intros [= <- <-]; auto using touches_refl, touches_file.
Qed.

Lemma open_w_raises (path : str) w e w' :
  io_failures_only w → open_w path w = (Raise e, w') →
  is_Exception e = true.
Proof.
  intros Hio. rewrite open_w_run.
  destruct (disk w path) as [[e'|e']|] eqn:Hdisk; intros [= <- <-].
  apply (Hio _ _ Hdisk).
Qed.

Lemma write_raises (path : str) (c : chunk) w e w' :
  io_failures_only w → write path c w = (Raise e, w') →
  is_Exception e = true.
Proof.
  intros Hio. rewrite write_run.
  destruct (disk w path) as [[e'|e']|] eqn:Hdisk; intros [= <- <-].
  apply (Hio _ _ Hdisk).
Qed.

Lemma io_failures_only_touches (path : str) w w' :
  touches path w w' → io_failures_only w → io_failures_only w'.
Proof. intros (Hd & _) Hio p f. rewrite Hd. apply Hio. Qed.

Lemma dict_to_list_raises (rowdict : record) (e : exn) :
  dict_to_list rowdict = Raise e → is_Exception e = true.
Proof. unfold dict_to_list. case_decide; [done|]. by intros [= <-]. Qed.

(** [writerows] never lets anything but an [Exception] out, and touches
    only its file. *)
Lemma writerows_returns (filename : str) (rowdicts : list record) :
  ∀ w, io_failures_only w →
    ∃ r w',
      writerows filename rowdicts w = (r, w') ∧ touches filename w w' ∧
      ∀ e, r = Raise e → is_Exception e = true.
Proof.
  induction rowdicts as [|rowdict rest IH]; intros w Hio.
  - exists (Ok tt), w. split; [done|]. split; [apply touches_refl|done].
  - cbn [writerows]. unfold lift.
    destruct (dict_to_list rowdict) as [cells|e] eqn:Hcells.
    + erewrite bind_ok by reflexivity.
      destruct (write filename (CsvRow cells) w) as [[[]|e] w1] eqn:Hwrite.
      * erewrite bind_ok by exact Hwrite.
        apply write_touches in Hwrite.
        destruct (IH w1) as (r & w' & Hrest & Hw' & Hr);
          [by eapply io_failures_only_touches|].
        exists r, w'. eauto using touches_trans.
      * erewrite bind_raise by exact Hwrite.
        exists (Raise e), w1.
        split; [done|]. split; [by eapply write_touches|].
        intros ? [= <-]. by eapply write_raises.
    + erewrite bind_raise by reflexivity.
      exists (Raise e), w. split; [done|]. split; [apply touches_refl|].
      intros ? [= <-]. by eapply dict_to_list_raises.
Qed.
End Touches.

Section WriterOutcomes.
Context {node : Type}.
Implicit Types w : world node.

(** The one [except Exception] clause of a writer. *)
Lemma writer_clause (o : exn → output) (e : exn) w :
  is_Exception e = true →
  dispatch [(is_Exception, λ e, console_print (o e);; mret false)] e w =
  (Ok false, say (o e) w).
Proof. intros He. cbn [dispatch]. by rewrite He. Qed.

Lemma well_formed_cells (d : record) :
  well_formed d → ∃ cells, dict_to_list d = Ok cells.
Proof.
  intros (Hdom & _). unfold dict_to_list. rewrite Hdom.
  rewrite decide_True; [eauto|]. unfold record_keys, fieldnames.
  cbn [list_to_set]. set_solver.
Qed.

(** On a path the disk accepts, [writerows] appends one line per record. *)
Lemma writerows_writes (filename : str) (rowdicts : list record) :
  ∀ w old,
    Forall well_formed rowdicts → disk w filename = None →
    files w !! filename = Some old →
    ∃ w' lines,
      writerows filename rowdicts w = (Ok tt, w') ∧
      touches filename w w' ∧
      files w' !! filename = Some (old ++ lines) ∧
      length lines = length rowdicts.
Proof.
  induction rowdicts as [|rowdict rest IH]; intros w old Hwf Hdisk Hold.
  - exists w, []. rewrite app_nil_r. by split; [|split; [apply touches_refl|]].
  - apply Forall_cons in Hwf as [Hd Hrest].
    destruct (well_formed_cells _ Hd) as (cells & Hcells).
    cbn [writerows]. unfold lift. rewrite Hcells.
    erewrite bind_ok by reflexivity.
    erewrite bind_ok by (rewrite write_run, Hdisk; reflexivity).
    rewrite Hold. cbn [default from_option].
    destruct (IH (set_files (<[filename := old ++ [CsvRow cells]]> (files w)) w)
                (old ++ [CsvRow cells]) Hrest Hdisk)
      as (w' & lines & Hrun & Hw' & Hfile & Hlen).
    { world_simpl. by rewrite lookup_insert_eq. }
    exists w', (CsvRow cells :: lines). split; [done|].
    split; [eauto using touches_trans, touches_file|].
    split; [by rewrite Hfile, <-app_assoc|]. cbn. by rewrite Hlen.
Qed.

(** What the tabular writer leaves on a path the disk accepts. *)
Lemma save_to_csv_writes (developers : list record) (filename : str) w :
  developers ≠ [] → Forall well_formed developers →
  disk w filename = None →
  ∃ w' lines,
    save_to_csv developers filename w = (Ok true, w') ∧
    touches filename w w' ∧
    files w' !! filename = Some (CsvRow (py <$> fieldnames) :: lines) ∧
    length lines = length developers.
Proof.
  intros Hne Hwf Hdisk.
  destruct (writerows_writes filename developers
              (set_files (<[filename := [CsvRow (py <$> fieldnames)]]>
                            (<[filename := []]> (files w)))
                 (set_files (<[filename := []]> (files w)) w))
              [CsvRow (py <$> fieldnames)] Hwf Hdisk)
    as (w' & lines & Hrows & Hw' & Hfile & Hlen).
  { world_simpl. by rewrite lookup_insert_eq. }
  exists w', lines. split; [|split; [|by split]].
  - destruct developers as [|d ds]; [done|]. unfold save_to_csv.
    apply try_ok.
    erewrite bind_ok by (rewrite open_w_run, Hdisk; reflexivity).
    erewrite bind_ok.
    2:{ rewrite write_run. world_simpl. rewrite Hdisk, lookup_insert_eq.
        reflexivity. }
    by erewrite bind_ok by exact Hrows.
  - eapply touches_trans; [|exact Hw'].
    eapply touches_trans; [apply touches_file|].
    apply (touches_file filename _ (set_files _ w)).
Qed.

(** Whatever the disk answers, the tabular writer returns a boolean, and
    [False] when the disk refuses its path. *)
Lemma save_to_csv_returns (developers : list record) (filename : str) w :
  io_failures_only w →
  ∃ b w',
    save_to_csv developers filename w = (Ok b, w') ∧
    touches filename w w' ∧
    (is_Some (disk w filename) → b = false).
Proof.
  intros Hio. destruct developers as [|d ds].
  { exists false, w. split; [done|]. split; [apply touches_refl|done]. }
  unfold save_to_csv. cbv iota.
  destruct (open_w filename w) as [[[]|e] w1] eqn:Hopen.
  2:{ exists false, (say (CsvError e) w1). split.
      - erewrite try_raise by (by erewrite bind_raise by exact Hopen).
        by rewrite writer_clause by (by eapply open_w_raises).
      - split; [|done].
        eauto using touches_trans, open_w_touches, touches_say. }
  assert (touches filename w w1) as Hw1 by (by eapply open_w_touches).
  assert (io_failures_only w1) as Hio1
    by (by eapply io_failures_only_touches).
  destruct (write filename (CsvRow (py <$> fieldnames)) w1)
    as [[[]|e] w2] eqn:Hhead.
  2:{ exists false, (say (CsvError e) w2). split.
      - erewrite try_raise.
        2:{ erewrite bind_ok by exact Hopen.
            by erewrite bind_raise by exact Hhead. }
        by rewrite writer_clause by (by eapply write_raises).
      - split; [|done].
        eauto using touches_trans, write_touches, touches_say. }
  assert (touches filename w1 w2) as Hw2 by (by eapply write_touches).
  assert (io_failures_only w2) as Hio2
    by (by eapply io_failures_only_touches).
  destruct (writerows_returns filename (d :: ds) w2 Hio2)
    as (r & w3 & Hrows & Hw3 & Hr).
  destruct r as [[]|e].
  - exists true, w3. split.
    + apply try_ok. erewrite bind_ok by exact Hopen.
      erewrite bind_ok by exact Hhead.
      by erewrite bind_ok by exact Hrows.
    + split; [eauto using touches_trans|].
      intros [f Hf]. rewrite open_w_run, Hf in Hopen.
      destruct f as [e|e]; [done|].
      injection Hopen as <-.
      rewrite write_run in Hhead. cbn [disk set_files] in Hhead.
      by rewrite Hf in Hhead.
  - exists false, (say (CsvError e) w3). split.
    + erewrite try_raise.
      2:{ erewrite bind_ok by exact Hopen.
          erewrite bind_ok by exact Hhead.
          by erewrite bind_raise by exact Hrows. }
      by rewrite writer_clause by eauto.
    + split; [|done]. eauto using touches_trans, touches_say.
Qed.

(** Whatever the disk answers, the structured writer returns a boolean,
    [False] when the disk refuses its path, and with the document on disk
    when it does not. *)
Lemma save_to_json_returns (developers : list record) (filename : str) w :
  io_failures_only w →
  ∃ b w',
    save_to_json developers filename w = (Ok b, w') ∧
    touches filename w w' ∧
    (is_Some (disk w filename) → b = false) ∧
    (developers ≠ [] → disk w filename = None →
     ∃ doc,
       json_load filename w' = Some doc ∧
       doc !! "developers" = Some (JRecords developers)).
Proof.
  intros Hio. destruct developers as [|d ds].
  { exists false, w. split; [done|]. split; [apply touches_refl|done]. }
  destruct (disk w filename) as [f|] eqn:Hdisk.
  - pose proof (Hio _ _ Hdisk) as He.
    unfold save_to_json. cbv iota.
    erewrite bind_ok by reflexivity. cbv zeta.
    destruct f as [e|e]; cbn [fault_exn] in He.
    + exists false, (say (JsonError e) (set_ticks (S (ticks w)) w)). split.
      * erewrite try_raise.
        2:{ erewrite bind_raise; [done|].
            rewrite open_w_run. world_simpl. by rewrite Hdisk. }
        by rewrite writer_clause.
      * split; [|done].
        eauto using touches_trans, touches_ticks, touches_say.
    + exists false,
        (say (JsonError e)
           (set_files (<[filename := []]> (files w))
              (set_ticks (S (ticks w)) w))).
      split.
      * erewrite try_raise.
        2:{ erewrite bind_ok.
            2:{ rewrite open_w_run. world_simpl. by rewrite Hdisk. }
            erewrite bind_raise; [done|].
            rewrite write_run. world_simpl. by rewrite Hdisk. }
        by rewrite writer_clause.
      * split; [|done].
        eapply touches_trans; [apply touches_ticks|].
        eapply touches_trans; [|apply touches_say].
        apply (touches_file filename [] (set_ticks _ w)).
  - eexists true, _. split; [by apply save_to_json_writes|].
    split; [|split; [by intros [? ?]|]].
    + eapply touches_trans; [apply touches_ticks|].
      apply (touches_file filename _ (set_ticks _ w)).
    + intros _ _. eexists. unfold json_load. world_simpl.
      rewrite lookup_insert_eq. split; reflexivity.
Qed.
End WriterOutcomes.

(** ** What the extractor hands over *)

Section Handover.
Context `{Soup node}.

Lemma parse_elements_any (elements : list node) :
  ∀ (i : nat) (developers : list record) (w : world node) r w',
    parse_elements i elements developers w = (r, w') →
    only_talked w w' ∧
    ∀ developers',
      r = Ok developers' →
      Forall well_formed developers → Forall well_formed developers'.
Proof.
  induction elements as [|element rest IH]; intros i developers w r w'.
  - intros [= <- <-]. split; [apply only_talked_refl|]. by intros ? [= <-].
  - rewrite parse_elements_cons, parse_element_run.
    destruct (row_fields i element) as [d0|e] eqn:Hd0.
    + destruct (retained i element).
      * intros [Hw Hwf]%IH. split.
        -- eauto using only_talked_trans, only_talked_ticks.
        -- intros developers' -> Hdevs. apply Hwf; [done|].
           apply Forall_app. split; [done|]. apply Forall_singleton.
           apply row_fields_ok in Hd0 as (? & ? & ? & ? & ? & ? & -> & _).
           apply stamped_well_formed.
      * apply IH.
    + destruct (is_Exception e).
      * intros [Hw Hwf]%IH. split; [|done].
        eauto using only_talked_trans, only_talked_say.
      * intros [= <- <-]. split; [apply only_talked_refl|done].
Qed.

Lemma scrape_clauses_run (e : exn) (w : world node) :
  ∃ r w',
    dispatch scrape_clauses e w = (r, w') ∧ only_talked w w' ∧
    (∀ developers, r = Ok developers → developers = []) ∧
    (is_Exception e = true → r = Ok []).
Proof.
  unfold scrape_clauses. cbn [dispatch].
  destruct (is_RequestException e) eqn:Hreq.
  { exists (Ok []), (say (FetchError e) w).
    split; [done|]. split; [apply only_talked_say|].
    split; [by intros ? [= <-]|done]. }
  destruct (is_Exception e) eqn:Hexn.
  { exists (Ok []), (say (UnexpectedError e) w).
    split; [done|]. split; [apply only_talked_say|].
    split; [by intros ? [= <-]|done]. }
  exists (Raise e), w. split; [done|]. split; [apply only_talked_refl|done].
Qed.

(** A search of the page that raised: the clause of its class answers. *)
Lemma scrape_find_all_raises (w : world node) (soup : node) (e : exn) :
  network w = Ok soup →
  find_all (py "article") (Some (py "Box-row")) soup = Raise e →
  scrape_trending_developers w =
  dispatch scrape_clauses e (say Fetching (say Banner w)).
Proof.
  intros Hnet Hall.
  unfold scrape_trending_developers, try_except, mbind, M_bind,
    console_print, requests_get, lift.
  cbn [network say set_console]. rewrite Hnet, Hall. reflexivity.
Qed.

(** Whatever happens, the extractor only prints and reads the clock, and
    what it returns is a list of fully formed records. *)
Lemma scrape_any (w : world node) r w' :
  scrape_trending_developers w = (r, w') →
  only_talked w w' ∧
  ∀ developers, r = Ok developers → Forall well_formed developers.
Proof.
  assert (only_talked w (say Fetching (say Banner w))) as Hw2
    by eauto using only_talked_trans, only_talked_say.
  assert (∀ e w1, only_talked w w1 →
            dispatch scrape_clauses e w1 = (r, w') →
            only_talked w w' ∧
            ∀ developers, r = Ok developers → Forall well_formed developers)
    as Hclauses.
  { intros e w1 Hw1 Hrun.
    destruct (scrape_clauses_run e w1) as (r1 & w1' & Hr1 & Hw1' & Hnil & _).
    rewrite Hr1 in Hrun. injection Hrun as <- <-.
    split; [eauto using only_talked_trans|].
    intros developers ->. by rewrite (Hnil developers). }
  destruct (network w) as [soup|e] eqn:Hnet.
  2:{ rewrite (scrape_fetch_raises _ _ Hnet). by apply Hclauses. }
  destruct (find_all (py "article") (Some (py "Box-row")) soup)
    as [elements|e] eqn:Hall.
  2:{ rewrite (scrape_find_all_raises _ _ _ Hnet Hall). by apply Hclauses. }
  rewrite (scrape_run _ _ _ Hnet Hall).
  destruct (parse_elements 0 elements [] _) as [[developers|e] w1] eqn:Hloop;
    apply parse_elements_any in Hloop as [Hw1 Hwf].
  - intros [= <- <-]. split.
    + eauto using only_talked_trans, only_talked_say.
    + intros ? [= <-]. by apply Hwf.
  - apply Hclauses. eauto using only_talked_trans, only_talked_say.
Qed.
End Handover.

(** ** The table *)

Section Table.
Context {node : Type} {rich : Rich}.
Implicit Types w : world node.

Lemma print_table_run (rows : list (list str)) w :
  omap markup_error (cells_by_column rows) = [] →
  print_table rows w = (Ok tt, say (TableShown table_columns rows) w).
Proof. intros Hplain. unfold print_table. by rewrite Hplain. Qed.

Lemma omap_nil {A B : Type} (f : A → option B) (l : list A) :
  Forall (λ x, f x = None) l → omap f l = [].
Proof.
  induction 1 as [|x l Hx _ IH]; [done|]. cbn. by rewrite Hx.
Qed.

Lemma cells_by_column_cell (rows : list (list str)) (c : str) :
  c ∈ cells_by_column rows → ∃ row, row ∈ rows ∧ c ∈ row.
Proof.
  unfold cells_by_column. rewrite list_elem_of_In, in_concat.
  intros (column & Hcolumn & Hc).
  apply list_elem_of_In, list_elem_of_fmap in Hcolumn as (j & -> & _).
  apply list_elem_of_In, list_elem_of_omap in Hc as (row & Hrow & Hj).
  exists row. split; [done|]. by eapply list_elem_of_lookup_2.
Qed.

(** On a console that prints a text without an opening bracket as it
    stands, a table none of whose cells holds one can be drawn. *)
Lemma plain_cells_render (developers : list record) :
  markup_plain →
  (∀ rows, mapM table_row (take 10 developers) = Ok rows →
     Forall (Forall (λ c : str, 91%N ∉ c)) rows) →
  table_renders developers.
Proof.
  intros Hplain Hcells rows Hrows. apply omap_nil, Forall_forall.
  intros c (row & Hrow & Hc)%cells_by_column_cell. apply Hplain.
  specialize (Hcells rows Hrows).
  rewrite Forall_forall in Hcells. specialize (Hcells row Hrow).
  rewrite Forall_forall in Hcells. by apply Hcells.
Qed.

Lemma print_table_raises (rows : list (list str)) (e : exn) w :
  head (omap markup_error (cells_by_column rows)) = Some e →
  print_table rows w = (Raise e, w).
Proof. intros He. unfold print_table. by rewrite He. Qed.

Lemma well_formed_table_row (d : record) :
  well_formed d → ∃ row, table_row d = Ok row.
Proof.
  intros (_ & [z Hrank] & Htext).
  destruct (Htext "username") as [u Hu]; [set_solver|done|].
  destruct (Htext "name") as [n Hn]; [set_solver|done|].
  destruct (Htext "popular_repo") as [p Hp]; [set_solver|done|].
  destruct (Htext "repo_description") as [r Hr]; [set_solver|done|].
  rewrite (table_row_run _ _ _ _ _ _ Hrank Hu Hn Hp Hr). eauto.
Qed.

Lemma table_rows (developers : list record) :
  Forall well_formed developers →
  ∃ rows,
    mapM table_row developers = Ok rows ∧
    length rows = length developers.
Proof.
  induction 1 as [|d ds Hd _ (rows & Hrows & Hlen)].
  - by exists [].
  - destruct (well_formed_table_row d Hd) as [row Hrow].
    exists (row :: rows). cbn [mapM]. rewrite Hrow. cbn.
    rewrite Hrows. cbn. by rewrite Hlen.
Qed.

(** The Reporter on fully formed records whose table can be drawn: the
    table is shown. *)
Lemma display_results_shows (developers : list record) w :
  developers ≠ [] → Forall well_formed developers →
  table_renders developers →
  ∃ rows w',
    display_results developers w = (Ok tt, w') ∧
    only_talked w w' ∧
    (∃ after,
       console w' = console w ++ TableShown table_columns rows :: after) ∧
    length rows = min 10 (length developers).
Proof.
  intros Hne Hwf Hrenders.
  destruct (table_rows (take 10 developers)) as (rows & Hrows & Hlen);
    [by apply Forall_take|].
  rewrite length_take in Hlen.
  specialize (Hrenders rows Hrows).
  destruct developers as [|d ds]; [done|].
  unfold display_results. cbv iota. unfold lift. rewrite Hrows.
  erewrite bind_ok by reflexivity.
  erewrite bind_ok by (by apply print_table_run).
  exists rows. destruct (10 <? length (d :: ds)).
  - eexists. split; [reflexivity|].
    split; [eauto using only_talked_trans, only_talked_say|].
    split; [|done]. eexists. world_simpl. by rewrite <-app_assoc.
  - eexists. split; [reflexivity|].
    split; [apply only_talked_say|]. split; [by exists []|done].
Qed.
End Table.

(** ** The run *)

Section Run.
Context `{Soup node} {rich : Rich}.
Implicit Types w : world node.

Lemma setup_directories_run w :
  makedirs_fault w = None →
  setup_directories w = (Ok tt, set_dirs ({[OUTPUT_DIR]} ∪ dirs w) w).
Proof. intros Hmk. unfold setup_directories, os_makedirs. by rewrite Hmk. Qed.


(** C10: every record the extractor returns is fully formed, with exactly
    the eight fields [rank], [name], [username], [profile_url],
    [avatar_url], [popular_repo], [repo_description] and [scraped_at],
    each bound to a value; and a row whose processing raises leaves the
    list as it was, no partial record added, the loop going on with the
    next row. *)
Theorem records_are_fully_formed :
  (∀ w developers w',
     scrape_trending_developers w = (Ok developers, w') →
     Forall well_formed developers) ∧
  (∀ (i : nat) (element : node) (rest : list node)
     (developers : list record) w (e : exn) w1,
     parse_element i element developers w = (Raise e, w1) →
     is_Exception e = true →
     parse_elements i (element :: rest) developers w =
     parse_elements (S i) rest developers (say (RowError (i + 1) e) w1)).
Proof.
  split.
  - intros w developers w' Hrun.
    apply scrape_any in Hrun as [_ Hwf]. by apply Hwf.
  - intros i element rest developers w e w1 Hrow He.
    by rewrite parse_elements_cons, Hrow, He.
Qed.
End Run.


Lemma records_are_fully_formed_sample :
  (∃ developers w',
     scrape_trending_developers Sample.online = (Ok developers, w') ∧
     Forall well_formed developers) ∧
  (parse_element 0 (Broken Sample.parse_failure) [] Sample.brittle
     = (Raise Sample.parse_failure, Sample.brittle) ∧
   is_Exception Sample.parse_failure = true ∧
   parse_elements 0 Sample.brittle_rows [] Sample.brittle =
   parse_elements 1 [Sound (Sample.row "Ann" "ann")] []
     (say (RowError 1 Sample.parse_failure) Sample.brittle)).
Proof.
  split.
  - destruct (scrape_trending_developers Sample.online)
      as [[developers|e] w'] eqn:Hrun; [|by vm_compute in Hrun].
    exists developers, w'. split; [reflexivity|].
    exact (proj1 records_are_fully_formed _ _ _ Hrun).
  - split; [reflexivity|]. split; [reflexivity|].
    apply (proj2 records_are_fully_formed 0 (Broken Sample.parse_failure)
             [Sound (Sample.row "Ann" "ann")] [] Sample.brittle
             Sample.parse_failure Sample.brittle); reflexivity.
Defined.

(** The brittle listing: the first row is reported and skipped, the second
    keeps its rank 2. *)
Example sample_brittle :
  match parse_elements 0 Sample.brittle_rows [] Sample.brittle with
  | (Ok developers, w') =>
      ((λ d : record, d !! "rank") <$> developers, console w')
  | (Raise _, _) => ([], [])
  end = ([Some (VInt 2)], [RowError 1 Sample.parse_failure]).
Proof. vm_compute. reflexivity. Qed.

Lemma output_paths_differ (timestamp : str) :
  output_path timestamp (py ".csv") ≠ output_path timestamp (py ".json").
Proof.
  unfold output_path. intros Heq.
  do 4 apply app_inv_head in Heq. discriminate Heq.
Qed.

Section Persist.
Context `{Soup node} {rich : Rich}.
Implicit Types w : world node.

(** The closing messages of [main]. *)
Lemma main_closing (n : nat) (csv_saved json_saved : bool)
    (csv_filename json_filename : str) w :
  ∃ w',
    (console_print (Scraped n);;
     (if csv_saved then console_print (CsvSaved csv_filename) else mret tt);;
     (if json_saved then console_print (JsonSaved json_filename)
      else mret tt);;
     if negb csv_saved || negb json_saved
     then console_print SomeFailed
     else mret tt) w = (Ok tt, w') ∧
    only_talked w w'.
Proof.
  destruct csv_saved, json_saved; eexists; (split; [reflexivity|]);
    eauto 6 using only_talked_trans, only_talked_say, only_talked_refl.
Qed.

(** C5: each writer returns a boolean whatever the disk answers, [False]
    when the disk refuses its path with an I/O failure, and lets no
    exception out; and in a run that has records to save, a refusal met by
    one writer stops neither the other, whose file is written whenever its
    own path is accepted, nor the Reporter, which is handed the records and
    shows their table whenever the console can draw it. *)
Theorem writers_contain_io_failures :
  (∀ (developers : list record) (filename : str) w,
     io_failures_only w →
     (∃ b w',
        save_to_csv developers filename w = (Ok b, w') ∧
        (is_Some (disk w filename) → b = false)) ∧
     (∃ b w',
        save_to_json developers filename w = (Ok b, w') ∧
        (is_Some (disk w filename) → b = false))) ∧
  (∀ w (developers : list record) w1,
     io_failures_only w →
     (setup_directories;; scrape_trending_developers) w
       = (Ok developers, w1) →
     developers ≠ [] →
     table_renders developers →
     ∃ w' timestamp rows,
       main w = (Ok tt, w') ∧
       (disk w (output_path timestamp (py ".csv")) = None →
        ∃ lines,
          files w' !! output_path timestamp (py ".csv")
            = Some (CsvRow (py <$> fieldnames) :: lines) ∧
          length lines = length developers) ∧
       (disk w (output_path timestamp (py ".json")) = None →
        ∃ doc,
          json_load (output_path timestamp (py ".json")) w' = Some doc ∧
          doc !! "developers" = Some (JRecords developers)) ∧
       (∃ before after,
          console w' =
            console w1 ++ before ++ TableShown table_columns rows :: after) ∧
       length rows = min 10 (length developers)).
Proof.
  split.
  { intros developers filename w Hio. split.
    - destruct (save_to_csv_returns developers filename w Hio)
        as (b & w' & Hrun & _ & Hb). eauto.
    - destruct (save_to_json_returns developers filename w Hio)
        as (b & w' & Hrun & _ & Hb & _). eauto. }
  intros w developers w1 Hio Hscrape Hne Hrenders.
  (* the directory, then the extractor *)
  destruct (setup_directories w) as [[[]|e0] w0] eqn:Hsetup;
    [|by erewrite bind_raise in Hscrape by exact Hsetup].
  erewrite bind_ok in Hscrape by exact Hsetup.
  assert (disk w0 = disk w ∧ files w0 = files w) as [Hdisk0 Hfiles0].
  { unfold setup_directories, os_makedirs in Hsetup.
    destruct (makedirs_fault w); [discriminate Hsetup|].
    by injection Hsetup as <-. }
  destruct (scrape_any _ _ _ Hscrape) as [Hw1 Hwf].
  specialize (Hwf developers eq_refl).
  assert (disk w1 = disk w) as Hdisk1
    by (destruct Hw1 as (_&_&_&_&_&->&_); done).
  (* the file names *)
  set (timestamp := strftime_compact (clock w1 (ticks w1))).
  set (csv_filename := output_path timestamp (py ".csv")).
  set (json_filename := output_path timestamp (py ".json")).
  set (w2 := say Saving (set_ticks (S (ticks w1)) w1)).
  assert (only_talked w1 w2) as Hw2
    by (unfold w2; eauto using only_talked_trans, only_talked_ticks,
          only_talked_say).
  assert (io_failures_only w2) as Hio2.
  { intros p f. destruct Hw2 as (_&_&_&_&_&->&_). rewrite Hdisk1. apply Hio. }
  (* the two writers *)
  destruct (save_to_csv_returns developers csv_filename w2 Hio2)
    as (csv_saved & w3 & Hcsv & Hw3 & _).
  assert (io_failures_only w3) as Hio3
    by (by eapply io_failures_only_touches).
  destruct (save_to_json_returns developers json_filename w3 Hio3)
    as (json_saved & w4 & Hjson & Hw4 & _ & Hdoc).
  (* the table and the closing messages *)
  destruct (display_results_shows developers (say Rule w4) Hne Hwf Hrenders)
    as (rows & w5 & Hshow & Hw5 & [after Hafter] & Hrows).
  destruct (main_closing (length developers) csv_saved json_saved
              csv_filename json_filename w5) as (w' & Hclose & Hw').
  exists w', timestamp, rows. split; [|split; [|split; [|split]]].
  - unfold main. apply try_ok.
    erewrite bind_ok by exact Hsetup.
    erewrite bind_ok by exact Hscrape.
    destruct developers as [|d ds]; [done|]. cbv iota.
    erewrite bind_ok by reflexivity. cbv zeta.
    erewrite bind_ok by reflexivity.
    erewrite bind_ok by exact Hcsv.
    erewrite bind_ok by exact Hjson.
    erewrite bind_ok by reflexivity.
    erewrite bind_ok by exact Hshow.
    exact Hclose.
  - intros Hfree.
    destruct (save_to_csv_writes developers csv_filename w2 Hne Hwf)
      as (w3' & lines & Hcsv' & _ & Hfile & Hlen).
    { destruct Hw2 as (_&_&_&_&_&->&_). by rewrite Hdisk1. }
    rewrite Hcsv in Hcsv'. injection Hcsv' as -> <-.
    exists lines. split; [|done].
    destruct Hw' as (-> & _), Hw5 as (-> & _). world_simpl.
    destruct Hw4 as (_ & _ & Hother & _).
    rewrite Hother; [done|]. apply output_paths_differ.
  - intros Hfree.
    destruct Hdoc as (doc & Hload & Hdevs); [done| |].
    { destruct Hw3 as (-> & _), Hw2 as (_&_&_&_&_&->&_). by rewrite Hdisk1. }
    exists doc. split; [|done].
    unfold json_load in *.
    destruct Hw' as (-> & _), Hw5 as (-> & _). by world_simpl.
  - destruct Hw' as (_&_&_&_&_&_& x5 & ->).
    rewrite Hafter. world_simpl.
    destruct Hw4 as (_ & _ & _ & x4 & ->), Hw3 as (_ & _ & _ & x3 & ->).
    unfold w2. world_simpl.
    exists ([Saving] ++ x3 ++ x4 ++ [Rule]), (after ++ x5).
    rewrite <-!app_assoc. reflexivity.
  - done.
Qed.
End Persist.

Lemma csv_refused_io_failures_only : io_failures_only Sample.csv_refused.
Proof.
  intros path f. cbn. case_decide; [|done]. by intros [= <-].
Qed.

Lemma renderer_plain : markup_plain (rich := Sample.renderer).
Proof.
  intros s Hs. destruct s as [|c [|c' s']]; [done|done|].
  cbn [markup_error Sample.renderer Sample.closing_tag_first].
  destruct (N.eqb_spec c 91) as [->|]; [|done].
  exfalso. apply Hs. by left.
Qed.

Lemma sample_table_renders (developers : list record) (rows : list (list str)) :
  mapM table_row (take 10 developers) = Ok rows →
  omap (@markup_error Sample.renderer) (cells_by_column rows) = [] →
  table_renders (rich := Sample.renderer) developers.
Proof. intros Hrows Hplain rows' Hrows'. congruence. Qed.

Lemma writers_contain_io_failures_sample :
  ((∃ b w',
      save_to_csv [Sample.ann] Sample.csv_path Sample.csv_refused
        = (Ok b, w') ∧
      (is_Some (disk Sample.csv_refused Sample.csv_path) → b = false)) ∧
   (∃ b w',
      save_to_json [Sample.ann] Sample.csv_path Sample.csv_refused
        = (Ok b, w') ∧
      (is_Some (disk Sample.csv_refused Sample.csv_path) → b = false))) ∧
  (∃ developers w1,
     (setup_directories;; scrape_trending_developers) Sample.csv_refused
       = (Ok developers, w1) ∧
     developers ≠ [] ∧
     table_renders (rich := Sample.renderer) developers ∧
     ∃ w' timestamp rows,
       main (rich := Sample.renderer) Sample.csv_refused = (Ok tt, w') ∧
       (disk Sample.csv_refused (output_path timestamp (py ".csv")) = None →
        ∃ lines,
          files w' !! output_path timestamp (py ".csv")
            = Some (CsvRow (py <$> fieldnames) :: lines) ∧
          length lines = length developers) ∧
       (disk Sample.csv_refused (output_path timestamp (py ".json")) = None →
        ∃ doc,
          json_load (output_path timestamp (py ".json")) w' = Some doc ∧
          doc !! "developers" = Some (JRecords developers)) ∧
       (∃ before after,
          console w' =
            console w1 ++ before ++ TableShown table_columns rows :: after) ∧
       length rows = min 10 (length developers)).
Proof.
  split.
  - apply (proj1 (writers_contain_io_failures (rich := Sample.renderer))
             [Sample.ann] Sample.csv_path
             Sample.csv_refused csv_refused_io_failures_only).
  - eexists _, _. split; [reflexivity|].
    assert (∀ l : list record, length l = 3 → l ≠ []) as Hne
      by (by intros [|? ?]).
    split; [apply Hne; vm_compute; reflexivity|].
    split; [eapply sample_table_renders; vm_compute; reflexivity|].
    apply (proj2 writers_contain_io_failures Sample.csv_refused);
      [exact csv_refused_io_failures_only|reflexivity| |].
    + apply Hne. vm_compute. reflexivity.
    + eapply sample_table_renders; vm_compute; reflexivity.
Defined.

(** On the disk that refuses the tabular file, the run still saves the
    structured one and shows the table. *)
Example sample_csv_refused :
  match main (rich := Sample.renderer) Sample.csv_refused with
  | (Ok _, w') => (console w', dom (files w'))
  | (Raise _, _) => ([], ∅)
  end =
  ([Banner; Fetching; Found 4; Saving; CsvError Sample.denied; Rule;
    TableShown table_columns
      [[py "1"; py "ann"; py "Ann"; py "repo"; py "a  tool"];
       [py "2"; py "bob"; py "Bob"; py "repo"; py "a  tool"];
       [py "4"; py "cy"; py "Cy"; py "repo"; py "a  tool"]];
    Scraped 3;
    JsonSaved (py "data/github_trending_developers_20240517_093000.json");
    SomeFailed],
   {[py "data/github_trending_developers_20240517_093000.json"]}).
Proof. vm_compute. reflexivity. Qed.

(** * Further properties of the script *)

(** ** What a run may write *)

Section Frames.
Context {node : Type} {rich : Rich}.
Implicit Types w : world node.
Context (paths : str → Prop).

Lemma leaves_alone_refl w : leaves_alone paths w w.
Proof. by intros p _. Qed.

Lemma leaves_alone_trans w1 w2 w3 :
  leaves_alone paths w1 w2 → leaves_alone paths w2 w3 →
  leaves_alone paths w1 w3.
Proof. intros H12 H23 p Hp. by rewrite H23, H12. Qed.

Lemma only_talked_leaves_alone w w' :
  only_talked w w' → leaves_alone paths w w'.
Proof. intros (Hf & _) p _. by rewrite Hf. Qed.

Lemma frames_ret {A} (a : A) : frames paths (mret a : M (world node) A).
Proof. intros w. apply leaves_alone_refl. Qed.

Lemma frames_raise {A} (e : exn) : frames paths (raise e : M (world node) A).
Proof. intros w. apply leaves_alone_refl. Qed.

Lemma frames_bind {A B} (m : M (world node) A) (f : A → M (world node) B) :
  frames paths m → (∀ a, frames paths (f a)) → frames paths (m ≫= f).
Proof.
  intros Hm Hf w. specialize (Hm w). unfold mbind, M_bind.
  destruct (m w) as [[a|e] w1]; [|done].
  eapply leaves_alone_trans; [exact Hm|apply Hf].
Qed.

Lemma frames_dispatch {A}
    (clauses : list ((exn → bool) * (exn → M (world node) A))) (e : exn) :
  Forall (λ clause, ∀ e, frames paths (clause.2 e)) clauses →
  frames paths (dispatch clauses e).
Proof.
  induction 1 as [|[C handler] rest Hhandler _ IH]; cbn [dispatch].
  - apply frames_raise.
  - destruct (C e); [apply Hhandler|apply IH].
Qed.

Lemma frames_try {A} (body : M (world node) A) clauses :
  frames paths body →
  Forall (λ clause, ∀ e, frames paths (clause.2 e)) clauses →
  frames paths (try_except body clauses).
Proof.
  intros Hbody Hclauses w. specialize (Hbody w). unfold try_except.
  destruct (body w) as [[a|e] w1]; [done|].
  eapply leaves_alone_trans; [exact Hbody|].
  by apply frames_dispatch.
Qed.

Lemma frames_console_print (o : output) :
  frames paths (console_print (node := node) o).
Proof. by intros w p _. Qed.

Lemma frames_datetime_now : frames paths (datetime_now (node := node)).
Proof. by intros w p _. Qed.

Lemma frames_lift {A} (r : result A) : frames paths (lift r : M (world node) A).
Proof. intros w. apply leaves_alone_refl. Qed.

Lemma frames_setup_directories :
  frames paths (setup_directories (node := node)).
Proof.
  intros w. unfold setup_directories, os_makedirs.
  by destruct (makedirs_fault w); intros p _.
Qed.

Lemma frames_open_w (path : str) :
  paths path → frames paths (open_w (node := node) path).
Proof.
  intros Hpath w p Hp. rewrite open_w_run.
  destruct (disk w path) as [[e|e]|]; cbn [snd]; world_simpl; try done;
    (rewrite lookup_insert_ne; [done|congruence]).
Qed.

Lemma frames_write (path : str) (c : chunk) :
  paths path → frames paths (write (node := node) path c).
Proof.
  intros Hpath w p Hp. rewrite write_run.
  destruct (disk w path) as [[e|e]|]; cbn [snd]; world_simpl; try done;
    (rewrite lookup_insert_ne; [done|congruence]).
Qed.

Lemma frames_writerows (filename : str) (rowdicts : list record) :
  paths filename → frames paths (writerows (node := node) filename rowdicts).
Proof.
  intros Hpath. induction rowdicts as [|rowdict rest IH]; cbn [writerows].
  - apply frames_ret.
  - apply frames_bind; [apply frames_lift|]. intros cells.
    apply frames_bind; [by apply frames_write|]. by intros _.
Qed.

Lemma frames_writer_clause (o : exn → output) :
  Forall (λ clause : (exn → bool) * (exn → M (world node) bool),
            ∀ e, frames paths (clause.2 e))
    [(is_Exception, λ e, console_print (o e);; mret false)].
Proof.
  apply Forall_singleton. intros e.
  apply frames_bind; [apply frames_console_print|]. intros _. apply frames_ret.
Qed.

Lemma frames_save_to_csv (developers : list record) (filename : str) :
  paths filename → frames paths (save_to_csv (node := node) developers filename).
Proof.
  intros Hpath. destruct developers as [|d ds]; [apply frames_ret|].
  unfold save_to_csv. apply frames_try; [|apply frames_writer_clause].
  apply frames_bind; [by apply frames_open_w|]. intros _.
  apply frames_bind; [by apply frames_write|]. intros _.
  apply frames_bind; [by apply frames_writerows|]. intros _.
  apply frames_ret.
Qed.

Lemma frames_save_to_json (developers : list record) (filename : str) :
  paths filename →
  frames paths (save_to_json (node := node) developers filename).
Proof.
  intros Hpath. destruct developers as [|d ds]; [apply frames_ret|].
  unfold save_to_json. apply frames_bind; [apply frames_datetime_now|].
  intros now. cbv zeta. apply frames_try; [|apply frames_writer_clause].
  apply frames_bind; [by apply frames_open_w|]. intros _.
  apply frames_bind; [by apply frames_write|]. intros _.
  apply frames_ret.
Qed.

Lemma frames_print_table (rows : list (list str)) :
  frames paths (print_table (node := node) rows).
Proof.
  intros w p _. unfold print_table.
  by destruct (head (omap markup_error (cells_by_column rows))).
Qed.

Lemma frames_display_results (developers : list record) :
  frames paths (display_results (node := node) developers).
Proof.
  destruct developers as [|d ds]; [apply frames_console_print|].
  unfold display_results. apply frames_bind; [apply frames_lift|].
  intros rows. apply frames_bind; [apply frames_print_table|]. intros _.
  destruct (10 <? length (d :: ds));
    [apply frames_console_print|apply frames_ret].
Qed.
End Frames.

Section MainFrames.
Context `{Soup node} {rich : Rich}.
Implicit Types w : world node.

Lemma frames_scrape (paths : str → Prop) :
  frames paths (scrape_trending_developers (node := node)).
Proof.
  intros w. destruct (scrape_trending_developers w) as [r w'] eqn:Hrun.
  apply scrape_any in Hrun as [Hw _]. by apply only_talked_leaves_alone.
Qed.

Lemma output_path_csv (timestamp : str) :
  is_output_path (output_path timestamp (py ".csv")).
Proof. exists timestamp. by left. Qed.

Lemma output_path_json (timestamp : str) :
  is_output_path (output_path timestamp (py ".json")).
Proof. exists timestamp. by right. Qed.

Lemma frames_main : frames is_output_path (main (node := node)).
Proof.
  unfold main. apply frames_try.
  2:{ repeat constructor; intros e; apply frames_console_print. }
  apply frames_bind; [apply frames_setup_directories|]. intros _.
  apply frames_bind; [apply frames_scrape|]. intros [|d ds].
  { apply frames_console_print. }
  apply frames_bind.
  { apply frames_bind; [apply frames_datetime_now|]. intros now.
    apply frames_ret. }
  intros timestamp. cbv zeta.
  apply frames_bind; [apply frames_console_print|]. intros _.
  apply frames_bind; [apply frames_save_to_csv, output_path_csv|].
  intros csv_saved.
  apply frames_bind; [apply frames_save_to_json, output_path_json|].
  intros json_saved.
  apply frames_bind; [apply frames_console_print|]. intros _.
  apply frames_bind; [apply frames_display_results|]. intros _.
  apply frames_bind; [apply frames_console_print|]. intros _.
  apply frames_bind.
  { destruct csv_saved; [apply frames_console_print|apply frames_ret]. }
  intros _. apply frames_bind.
  { destruct json_saved; [apply frames_console_print|apply frames_ret]. }
  intros _.
  destruct (negb csv_saved || negb json_saved);
    [apply frames_console_print|apply frames_ret].
Qed.

(** Whatever the network, the page, the clock and the disk do, a run leaves
    every file alone whose path is not that of a tabular or structured output
    file ([data/github_trending_developers_<timestamp>.csv] or [.json]): it
    is neither created, nor emptied, nor written. *)
Theorem main_writes_only_outputs w (p : str) :
  ¬ is_output_path p → files (main w).2 !! p = files w !! p.
Proof. intros Hp. by apply frames_main. Qed.

End MainFrames.

Lemma notes_not_output : ¬ is_output_path Sample.notes.
Proof. intros [timestamp [Hp|Hp]]; discriminate Hp. Qed.

Lemma main_writes_only_outputs_sample :
  files (main (rich := Sample.renderer) Sample.online).2 !! Sample.notes
  = files Sample.online !! Sample.notes.
Proof.
  apply (main_writes_only_outputs (rich := Sample.renderer) Sample.online
           Sample.notes).
  exact notes_not_output.
Defined.

(** ** How a run ends early *)

Section EarlyEnds.
Context `{Soup node} {rich : Rich}.
Implicit Types w : world node.





(** When the output directory cannot be made the run stops there: one line
    is printed (the interruption line for a keyboard interrupt, the error
    line otherwise), the page is not fetched and no file is touched. *)
Theorem main_directory_failure w (e : exn) :
  makedirs_fault w = Some e →
  main w =
  (Ok tt, say (if is_KeyboardInterrupt e then Interrupted else MainError e) w).
Proof.
  intros Hmk. unfold main.
  erewrite try_raise.
  2:{ erewrite bind_raise; [done|].
      unfold setup_directories, os_makedirs. by rewrite Hmk. }
  cbn [dispatch]. destruct (is_KeyboardInterrupt e) eqn:Hint; [done|].
  unfold is_KeyboardInterrupt in Hint. unfold is_Exception.
  by destruct (exn_kind e).
Qed.

(** A keyboard interrupt during the fetch ends the run with the interruption
    line, after the banner and the fetching line; no file is touched. *)
Theorem main_interrupted_fetch w (e : exn) :
  makedirs_fault w = None →
  network w = Raise e →
  is_KeyboardInterrupt e = true →
  ∃ w',
    main w = (Ok tt, w') ∧
    files w' = files w ∧
    console w' = console w ++ [Banner; Fetching; Interrupted].
Proof.
  intros Hmk Hnet Hint. eexists. split.
  - unfold main. erewrite try_raise.
    2:{ erewrite bind_ok by (by apply setup_directories_run).
        erewrite bind_raise; [done|].
        rewrite (scrape_fetch_raises (set_dirs _ w) e Hnet).
        unfold scrape_clauses. cbn [dispatch].
        unfold is_KeyboardInterrupt in Hint.
        unfold is_RequestException, is_Exception.
        destruct (exn_kind e); try done. }
    cbn [dispatch]. by rewrite Hint.
  - split; [reflexivity|]. world_simpl. by rewrite <-!app_assoc.
Qed.

(** When the extractor returns no record the run ends with the no-data
    line: the clock is not read for a file name, no writer runs, the table is
    not built and the files are what they were. *)
Theorem main_empty_extraction w w1 :
  (setup_directories;; scrape_trending_developers) w = (Ok [], w1) →
  main w = (Ok tt, say NoData w1) ∧ files w1 = files w.
Proof.
  intros Hrun. split.
  - unfold main. apply try_ok.
    destruct (setup_directories w) as [[[]|e0] w0] eqn:Hsetup;
      [|by erewrite bind_raise in Hrun by exact Hsetup].
    erewrite bind_ok in Hrun by exact Hsetup.
    erewrite bind_ok by exact Hsetup.
    by erewrite bind_ok by exact Hrun.
  - pose proof (frames_bind (λ _, False) _ _
                  (frames_setup_directories (node := node) _)
                  (λ _, frames_scrape _) w) as Hframe.
    rewrite Hrun in Hframe. cbn [snd] in Hframe.
    apply map_eq. intros p. apply Hframe. tauto.
Qed.
End EarlyEnds.



Lemma main_directory_failure_sample :
  main (rich := Sample.renderer) Sample.read_only =
  (Ok tt,
   say (if is_KeyboardInterrupt Sample.denied then Interrupted
        else MainError Sample.denied) Sample.read_only).
Proof.
  apply (main_directory_failure Sample.read_only Sample.denied). reflexivity.
Defined.

Lemma main_interrupted_fetch_sample :
  ∃ w',
    main (rich := Sample.renderer) Sample.interrupted = (Ok tt, w') ∧
    files w' = files Sample.interrupted ∧
    console w' = console Sample.interrupted ++ [Banner; Fetching; Interrupted].
Proof.
  apply (main_interrupted_fetch Sample.interrupted Sample.ctrl_c);
    reflexivity.
Defined.

Lemma main_empty_extraction_sample :
  ∃ w1,
    (setup_directories;; scrape_trending_developers) Sample.nobody
      = (Ok [], w1) ∧
    main (rich := Sample.renderer) Sample.nobody = (Ok tt, say NoData w1) ∧
    files w1 = files Sample.nobody.
Proof.
  eexists. split; [reflexivity|].
  apply (main_empty_extraction Sample.nobody). reflexivity.
Defined.

(** ** The table, row by row *)

Section TableLayout.
Context {node : Type} {rich : Rich}.
Implicit Types w : world node.

Lemma mapM_table_row_ok (developers : list record) :
  Forall well_formed developers →
  ∃ rows,
    mapM table_row developers = Ok rows ∧
    Forall2 (λ d row, table_row d = Ok row) developers rows.
Proof.
  induction 1 as [|d ds Hd _ (rows & Hrows & Hall)].
  - by exists [].
  - destruct (well_formed_table_row d Hd) as [row Hrow].
    exists (row :: rows). cbn [mapM]. rewrite Hrow. cbn.
    rewrite Hrows. cbn. split; [done|]. by constructor.
Qed.

Lemma mapM_table_row_raise (e : exn) (k : nat) :
  ∀ (n : nat) (developers : list record) (d : record),
    k < n → Forall well_formed (take k developers) →
    developers !! k = Some d → table_row d = Raise e →
    mapM table_row (take n developers) = Raise e.
Proof.
  induction k as [|k IH]; intros n developers d Hk Hwf Hd He;
    destruct n as [|n]; try lia; destruct developers as [|d0 ds]; try done.
  - injection Hd as ->. cbn [take mapM]. by rewrite He.
  - cbn [take] in Hwf. apply Forall_cons in Hwf as [Hd0 Hwf].
    destruct (well_formed_table_row d0 Hd0) as [row Hrow].
    cbn [take mapM]. rewrite Hrow. cbn.
    by rewrite (IH n ds d) by (done || lia).
Qed.

(** The Reporter shows the first ten records and no more: when those are
    fully formed and the console can draw their table, it prints one table,
    with the five columns and the widths of lines 152-156 and a row for
    each of the ten, in order, followed by the line counting the records
    left out exactly when there are more than ten; what comes after the
    tenth record is never read. *)
Theorem display_results_layout (developers : list record) w :
  developers ≠ [] → Forall well_formed (take 10 developers) →
  table_renders developers →
  ∃ rows w',
    display_results developers w = (Ok tt, w') ∧
    Forall2 (λ d row, table_row d = Ok row) (take 10 developers) rows ∧
    console w' =
      console w ++ TableShown table_columns rows ::
        (if 10 <? length developers
         then [MoreDevelopers (length developers - 10)] else []) ∧
    files w' = files w.
Proof.
  intros Hne Hwf Hrenders.
  destruct (mapM_table_row_ok _ Hwf) as (rows & Hrows & Hall).
  specialize (Hrenders rows Hrows).
  destruct developers as [|d ds]; [done|].
  unfold display_results. cbv iota. unfold lift. rewrite Hrows.
  erewrite bind_ok by reflexivity.
  erewrite bind_ok by (by apply print_table_run).
  exists rows. destruct (10 <? length (d :: ds)).
  - eexists. split; [reflexivity|]. split; [done|].
    world_simpl. by rewrite <-app_assoc.
  - eexists. split; [reflexivity|]. by split.
Qed.

(** A record among the first ten that has no [rank], the ones before it
    being fully formed, makes the Reporter raise [KeyError] for that key; the
    table is not printed, not even in part. *)
Theorem display_results_missing_rank (developers : list record) (k : nat)
    (d : record) w :
  k < 10 → Forall well_formed (take k developers) →
  developers !! k = Some d → d !! "rank" = None →
  display_results developers w = (Raise (Exn KeyError (py "rank")), w).
Proof.
  intros Hk Hwf Hd Hrank.
  assert (table_row d = Raise (Exn KeyError (py "rank"))) as Hrow
    by (unfold table_row, item; by rewrite Hrank).
  destruct developers as [|d0 ds]; [done|].
  unfold display_results. cbv iota. unfold lift.
  by rewrite (mapM_table_row_raise (Exn KeyError (py "rank")) k 10
                (d0 :: ds) d).
Qed.

(** A cell the console refuses stops the Reporter before anything is
    drawn: the error of the first refused cell, the columns read one after
    the other, leaves [display_results], and the console is as it was. *)
Lemma display_results_refused (developers : list record)
    (rows : list (list str)) (e : exn) w :
  developers ≠ [] →
  mapM table_row (take 10 developers) = Ok rows →
  head (omap markup_error (cells_by_column rows)) = Some e →
  display_results developers w = (Raise e, w).
Proof.
  intros Hne Hrows He. destruct developers as [|d ds]; [done|].
  unfold display_results. cbv iota. unfold lift. rewrite Hrows.
  erewrite bind_ok by reflexivity.
  by erewrite bind_raise by (by apply print_table_raises).
Qed.
End TableLayout.

Lemma sample_ann_well_formed : well_formed Sample.ann.
Proof.
  split; [reflexivity|]. split; [by eexists|].
  intros key Hkey Hrank. unfold record_keys in Hkey.
  repeat (apply elem_of_union in Hkey as [Hkey|Hkey]);
    apply elem_of_singleton in Hkey as ->;
    first [done | eexists; reflexivity].
Qed.

Lemma sample_bob_well_formed : well_formed Sample.bob.
Proof.
  split; [reflexivity|]. split; [by eexists|].
  intros key Hkey Hrank. unfold record_keys in Hkey.
  repeat (apply elem_of_union in Hkey as [Hkey|Hkey]);
    apply elem_of_singleton in Hkey as ->;
    first [done | eexists; reflexivity].
Qed.

Lemma display_results_layout_sample :
  ∃ rows w',
    display_results (rich := Sample.renderer) [Sample.ann; Sample.bob]
      Sample.blank = (Ok tt, w') ∧
    Forall2 (λ d row, table_row d = Ok row)
      (take 10 [Sample.ann; Sample.bob]) rows ∧
    console w' =
      console Sample.blank ++ TableShown table_columns rows ::
        (if 10 <? length [Sample.ann; Sample.bob]
         then [MoreDevelopers (length [Sample.ann; Sample.bob] - 10)]
         else []) ∧
    files w' = files Sample.blank.
Proof.
  apply (display_results_layout (rich := Sample.renderer)
           [Sample.ann; Sample.bob] Sample.blank); [discriminate| |].
  - cbn [take]. auto using sample_ann_well_formed, sample_bob_well_formed.
  - eapply sample_table_renders; vm_compute; reflexivity.
Defined.

(** A record named by a closing tag and nothing else: the sample console
    refuses the cell of its name, and the Reporter raises. *)
Example sample_closing_name :
  display_results (rich := Sample.renderer) [Cases.closing_name] Sample.blank
  = (Raise (Exn MarkupError
              (py "closing tag '[/b]' at position 0 doesn't match any open tag")),
     Sample.blank).
Proof. vm_compute. reflexivity. Qed.

Lemma display_results_missing_rank_sample :
  display_results (rich := Sample.renderer) [Sample.ann; Sample.unranked]
    Sample.blank
  = (Raise (Exn KeyError (py "rank")), Sample.blank).
Proof.
  apply (display_results_missing_rank (rich := Sample.renderer)
           [Sample.ann; Sample.unranked] 1
           Sample.unranked Sample.blank); [lia| |reflexivity|reflexivity].
  cbn [take]. auto using sample_ann_well_formed.
Defined.

(** ** What the writers leave on disk *)

Section WriterContent.
Context {node : Type}.
Implicit Types w : world node.

Lemma dict_to_list_line (d : record) :
  dom d ⊆ list_to_set fieldnames → ∃ cells,
    dict_to_list d = Ok cells ∧ csv_line d = CsvRow cells.
Proof.
  intros Hdom. unfold dict_to_list. rewrite decide_True by done.
  eexists. split; reflexivity.
Qed.

Lemma writerows_exact (filename : str) (rowdicts : list record) :
  ∀ w old,
    Forall (λ d, dom d ⊆ list_to_set fieldnames) rowdicts →
    disk w filename = None → files w !! filename = Some old →
    ∃ w',
      writerows filename rowdicts w = (Ok tt, w') ∧
      files w' = <[filename := old ++ (csv_line <$> rowdicts)]> (files w) ∧
      console w' = console w ∧ disk w' = disk w.
Proof.
  induction rowdicts as [|rowdict rest IH]; intros w old Hdom Hdisk Hold.
  - exists w. rewrite app_nil_r. split; [done|].
    split; [by rewrite insert_id|done].
  - apply Forall_cons in Hdom as [Hd Hrest].
    destruct (dict_to_list_line _ Hd) as (cells & Hcells & Hline).
    cbn [writerows]. unfold lift. rewrite Hcells.
    erewrite bind_ok by reflexivity.
    erewrite bind_ok by (rewrite write_run, Hdisk; reflexivity).
    rewrite Hold. cbn [default from_option].
    destruct (IH (set_files (<[filename := old ++ [CsvRow cells]]> (files w)) w)
                (old ++ [CsvRow cells]) Hrest Hdisk)
      as (w' & Hrun & Hfile & Hconsole & Hdisk').
    { world_simpl. by rewrite lookup_insert_eq. }
    exists w'. split; [done|]. split; [|done].
    rewrite Hfile. world_simpl.
    by rewrite insert_insert_eq, fmap_cons, Hline, <-app_assoc.
Qed.




(** On a path the disk accepts, the tabular writer leaves exactly the header
    line followed by one line per record, in the order given, each with
    its cells in the order of the columns; whatever the file held before is
    gone, and nothing is printed. *)
Theorem save_to_csv_content (developers : list record) (filename : str) w :
  developers ≠ [] →
  Forall (λ d, dom d ⊆ list_to_set fieldnames) developers →
  disk w filename = None →
  ∃ w',
    save_to_csv developers filename w = (Ok true, w') ∧
    files w' =
      <[filename := CsvRow (py <$> fieldnames) :: (csv_line <$> developers)]>
        (files w) ∧
    console w' = console w.
Proof.
  intros Hne Hdom Hdisk.
  destruct (writerows_exact filename developers
              (set_files (<[filename := [CsvRow (py <$> fieldnames)]]>
                            (<[filename := []]> (files w)))
                 (set_files (<[filename := []]> (files w)) w))
              [CsvRow (py <$> fieldnames)] Hdom Hdisk)
    as (w' & Hrows & Hfile & Hconsole & _).
  { world_simpl. by rewrite lookup_insert_eq. }
  exists w'. split; [|split; [|done]].
  - destruct developers as [|d ds]; [done|]. unfold save_to_csv.
    apply try_ok.
    erewrite bind_ok by (rewrite open_w_run, Hdisk; reflexivity).
    erewrite bind_ok.
    2:{ rewrite write_run. world_simpl. rewrite Hdisk, lookup_insert_eq.
        reflexivity. }
    by erewrite bind_ok by exact Hrows.
  - rewrite Hfile. world_simpl. by rewrite !insert_insert_eq.
Qed.


(** When the disk refuses the path at [open], a writer given records creates
    no file: for an [Exception] it prints its one error line and answers
    [False]; an exception outside [Exception] goes through it. *)
Theorem writers_open_failure (developers : list record) (filename : str) w
    (e : exn) :
  developers ≠ [] → disk w filename = Some (OpenFails e) →
  save_to_csv developers filename w =
    (if is_Exception e then (Ok false, say (CsvError e) w)
     else (Raise e, w)) ∧
  save_to_json developers filename w =
    (if is_Exception e
     then (Ok false, say (JsonError e) (set_ticks (S (ticks w)) w))
     else (Raise e, set_ticks (S (ticks w)) w)).
Proof.
  intros Hne Hdisk. destruct developers as [|d ds]; [done|]. split.
  - unfold save_to_csv. erewrite try_raise.
    2:{ erewrite bind_raise; [done|]. by rewrite open_w_run, Hdisk. }
    cbn [dispatch]. by destruct (is_Exception e).
  - unfold save_to_json. erewrite bind_ok by reflexivity. cbv zeta.
    erewrite try_raise.
    2:{ erewrite bind_raise; [done|].
        rewrite open_w_run. world_simpl. by rewrite Hdisk. }
    cbn [dispatch]. by destruct (is_Exception e).
Qed.

(** When the disk accepts the [open] and refuses the first write with an
    I/O failure, a writer given records answers [False] after its error
    line and leaves an empty file at the path. *)
Theorem writers_write_failure (developers : list record) (filename : str) w
    (e : exn) :
  developers ≠ [] → disk w filename = Some (WriteFails e) →
  is_Exception e = true →
  save_to_csv developers filename w =
    (Ok false,
     say (CsvError e) (set_files (<[filename := []]> (files w)) w)) ∧
  save_to_json developers filename w =
    (Ok false,
     say (JsonError e)
       (set_files (<[filename := []]> (files w))
          (set_ticks (S (ticks w)) w))).
Proof.
  intros Hne Hdisk He. destruct developers as [|d ds]; [done|]. split.
  - unfold save_to_csv. erewrite try_raise.
    2:{ erewrite bind_ok by (by rewrite open_w_run, Hdisk).
        erewrite bind_raise; [done|].
        rewrite write_run. world_simpl. by rewrite Hdisk. }
    by rewrite writer_clause.
  - unfold save_to_json. erewrite bind_ok by reflexivity. cbv zeta.
    erewrite try_raise.
    2:{ erewrite bind_ok.
        2:{ rewrite open_w_run. world_simpl. by rewrite Hdisk. }
        erewrite bind_raise; [done|].
        rewrite write_run. world_simpl. by rewrite Hdisk. }
    by rewrite writer_clause.
Qed.
End WriterContent.

Lemma sample_columns (d : record) :
  well_formed d → dom d ⊆ list_to_set fieldnames.
Proof.
  intros (-> & _). unfold record_keys, fieldnames. cbn [list_to_set].
  set_solver.
Qed.

Lemma save_to_csv_content_sample :
  ∃ w',
    save_to_csv [Sample.ann; Sample.bob] Sample.csv_path Sample.blank
      = (Ok true, w') ∧
    files w' =
      <[Sample.csv_path :=
          CsvRow (py <$> fieldnames)
          :: (csv_line <$> [Sample.ann; Sample.bob])]>
        (files Sample.blank) ∧
    console w' = console Sample.blank.
Proof.
  apply (save_to_csv_content [Sample.ann; Sample.bob] Sample.csv_path
           Sample.blank); [discriminate| |reflexivity].
  auto using sample_columns, sample_ann_well_formed, sample_bob_well_formed.
Defined.

(** The two lines of the sample records, cell by cell. *)
Example sample_csv_lines :
  csv_line <$> [Sample.ann; Sample.bob] =
  [CsvRow [py "1"; py "ann"; py "Ann"; py "a tool"; py "https://avatars/ann";
           py "https://github.com/ann"; py "repo"; py "2024-05-17T09:30:00"];
   CsvRow [py "2"; py "bob"; py "Bob"; py "a tool"; py "https://avatars/bob";
           py "https://github.com/bob"; py "repo"; py "2024-05-17T09:30:00"]].
Proof. vm_compute. reflexivity. Qed.




(** The error of the sample record, as [csv.DictWriter] words it. *)
Example sample_extra_key :
  dict_to_list Cases.tagged =
  Raise (Exn ValueError
           (py "dict contains fields not in fieldnames: 'note'")).
Proof. vm_compute. reflexivity. Qed.

Lemma writers_open_failure_sample :
  save_to_csv [Sample.ann] Sample.csv_path Sample.full_disk =
    (if is_Exception Sample.denied
     then (Ok false, say (CsvError Sample.denied) Sample.full_disk)
     else (Raise Sample.denied, Sample.full_disk)) ∧
  save_to_json [Sample.ann] Sample.csv_path Sample.full_disk =
    (if is_Exception Sample.denied
     then (Ok false,
           say (JsonError Sample.denied)
             (set_ticks (S (ticks Sample.full_disk)) Sample.full_disk))
     else (Raise Sample.denied,
           set_ticks (S (ticks Sample.full_disk)) Sample.full_disk)).
Proof.
  apply (writers_open_failure [Sample.ann] Sample.csv_path Sample.full_disk
           Sample.denied); [discriminate|reflexivity].
Defined.

Lemma writers_write_failure_sample :
  save_to_csv [Sample.ann] Sample.csv_path Cases.stalled =
    (Ok false,
     say (CsvError Sample.denied)
       (set_files (<[Sample.csv_path := []]> (files Cases.stalled))
          Cases.stalled)) ∧
  save_to_json [Sample.ann] Sample.csv_path Cases.stalled =
    (Ok false,
     say (JsonError Sample.denied)
       (set_files (<[Sample.csv_path := []]> (files Cases.stalled))
          (set_ticks (S (ticks Cases.stalled)) Cases.stalled))).
Proof.
  apply (writers_write_failure [Sample.ann] Sample.csv_path Cases.stalled
           Sample.denied); [discriminate|reflexivity|reflexivity].
Defined.

(** ** Ranks, instants and repeated runs *)

Lemma filter_seq_sorted (P : nat → Prop) `{!∀ j, Decision (P j)} (n : nat) :
  ∀ i, StronglySorted lt (filter P (seq i n)).
Proof.
  induction n as [|n IH]; intros i; cbn [seq]; [constructor|].
  rewrite filter_cons. destruct (decide (P i)); [|apply IH].
  constructor; [apply IH|]. apply Forall_forall.
  intros j [_ Hj%elem_of_seq]%list_elem_of_filter. lia.
Qed.

Lemma strip_blank (text : str) :
  Forall (λ c, isspace c = true) text → strip text = [].
Proof.
  intros Hblank. unfold strip.
  assert (lstrip text = []) as ->; [|done].
  induction Hblank as [|c text Hc _ IH]; [done|]. cbn. by rewrite Hc.
Qed.

Section Listing.
Context `{Soup node}.
Implicit Types w : world node.

(** The ranks of the output go strictly up and lie between 1 and the number
    of rows of the listing: no rank is given twice, and the output is never
    longer than the listing. *)
Theorem ranks_strictly_increase (elements : list node) w :
  uninterrupted 0 elements = true →
  ∃ developers w' ranks,
    parse_elements 0 elements [] w = (Ok developers, w') ∧
    Forall2 (λ (d : record) r, d !! "rank" = Some (VInt (Z.of_nat r)))
      developers ranks ∧
    StronglySorted lt ranks ∧
    Forall (λ r, 1 ≤ r ≤ length elements) ranks ∧
    length developers ≤ length elements.
Proof.
  intros Hrun.
  destruct (parse_elements_from_start elements w Hrun)
    as (developers & w' & Hloop & _ & Hrows).
  exists developers, w', (S <$> retained_positions elements).
  split; [done|]. split; [|split; [|split]].
  - apply Forall2_fmap_r. eapply Forall2_impl; [done|].
    intros d j Hdj. rewrite (row_yields_rank _ _ _ Hdj). do 2 f_equal. lia.
  - unfold retained_positions.
    generalize (filter_seq_sorted (λ j, retained_at elements j = true)
                  (length elements) 0).
    generalize (filter (λ j, retained_at elements j = true)
                  (seq 0 (length elements))).
    induction 1 as [|j l _ IH Hj]; cbn; constructor; [done|].
    apply Forall_fmap. eapply Forall_impl; [done|]. cbn. lia.
  - apply Forall_fmap, Forall_forall.
    intros j [_ Hj%elem_of_seq]%list_elem_of_filter. cbn. lia.
  - rewrite (Forall2_length _ _ _ Hrows). unfold retained_positions.
    etrans; [apply length_filter|]. by rewrite length_seq.
Qed.

(** The loop reads the clock once per retained record and for nothing else:
    the record at place [k] of the output carries, as its instant of
    capture, the reading number [k] after the start of the loop. *)
Lemma parse_elements_stamps (elements : list node) :
  ∀ (i : nat) (developers : list record) w,
    uninterrupted i elements = true →
    ∃ new w',
      parse_elements i elements developers w = (Ok (developers ++ new), w') ∧
      ticks w' = ticks w + length new ∧ clock w' = clock w ∧
      ∀ k d, new !! k = Some d →
        d !! "scraped_at" = Some (VStr (isoformat (clock w (ticks w + k)))).
Proof.
  induction elements as [|element rest IH]; intros i developers w Hrun.
  - exists [], w. rewrite app_nil_r. repeat split; try done; cbn; lia.
  - cbn [uninterrupted] in Hrun. apply andb_true_iff in Hrun as [Hrow Hrest].
    rewrite parse_elements_cons, parse_element_run.
    destruct (row_fields i element) as [d0|e] eqn:Hd0.
    + destruct (retained i element).
      * destruct (IH (S i) (developers ++
          [<["scraped_at" := VStr (isoformat (clock w (ticks w)))]> d0])
          (set_ticks (S (ticks w)) w) Hrest)
          as (new & w' & Hloop & Hticks & Hclock & Hnew).
        exists (<["scraped_at" := VStr (isoformat (clock w (ticks w)))]> d0
                :: new), w'.
        rewrite Hloop, <-app_assoc. split; [done|].
        split; [rewrite Hticks; cbn; lia|]. split; [done|].
        intros [|k] d Hk.
        -- injection Hk as <-. rewrite Nat.add_0_r. apply lookup_insert_eq.
        -- rewrite (Hnew k d Hk). world_simpl.
           by replace (S (ticks w) + k) with (ticks w + S k) by lia.
      * apply IH, Hrest.
    + rewrite Hrow. apply (IH (S i) developers (say (RowError (i + 1) e) w)).
      exact Hrest.
Qed.

Theorem records_stamped_in_turn (elements : list node) w :
  uninterrupted 0 elements = true →
  ∃ developers w',
    parse_elements 0 elements [] w = (Ok developers, w') ∧
    ticks w' = ticks w + length developers ∧
    ∀ k d, developers !! k = Some d →
      d !! "scraped_at" = Some (VStr (isoformat (clock w (ticks w + k)))).
Proof.
  intros Hrun.
  destruct (parse_elements_stamps elements 0 [] w Hrun)
    as (developers & w' & Hloop & Hticks & _ & Hstamps).
  by exists developers, w'.
Qed.

Lemma parse_elements_same_outcome (elements : list node) :
  ∀ (i : nat) (developers1 developers2 : list record) w1 w2,
    unstamped developers1 = unstamped developers2 →
    same_outcome (parse_elements i elements developers1 w1).1
      (parse_elements i elements developers2 w2).1.
Proof.
  induction elements as [|element rest IH];
    intros i developers1 developers2 w1 w2 Hsame; [done|].
  rewrite !parse_elements_cons, !parse_element_run.
  destruct (row_fields i element) as [d0|e].
  - destruct (retained i element); apply IH; [|done].
    unfold unstamped in *. rewrite !fmap_app, Hsame. cbn.
    by rewrite !delete_insert_eq.
  - destruct (is_Exception e); [by apply IH|done].
Qed.

Lemma scrape_clauses_same_outcome (e : exn) w1 w2 :
  same_outcome (dispatch scrape_clauses e w1).1
    (dispatch scrape_clauses e w2).1.
Proof.
  unfold scrape_clauses. cbn [dispatch].
  destruct (is_RequestException e); [done|].
  by destruct (is_Exception e).
Qed.

(** Running the extractor twice on the same answer of the network gives the
    same outcome, whatever the clock and the console were: the same
    exception, or the same records in the same order, equal in every field
    but the instant of capture. *)
Theorem scrape_repeatable w1 w2 :
  network w1 = network w2 →
  same_outcome (scrape_trending_developers w1).1
    (scrape_trending_developers w2).1.
Proof.
  intros Hnet.
  destruct (network w1) as [soup|e] eqn:Hnet1; symmetry in Hnet.
  2:{ rewrite (scrape_fetch_raises _ _ Hnet1), (scrape_fetch_raises _ _ Hnet).
      apply scrape_clauses_same_outcome. }
  destruct (find_all (py "article") (Some (py "Box-row")) soup)
    as [elements|e] eqn:Hall.
  2:{ rewrite (scrape_find_all_raises _ _ _ Hnet1 Hall),
        (scrape_find_all_raises _ _ _ Hnet Hall).
      apply scrape_clauses_same_outcome. }
  rewrite (scrape_run _ _ _ Hnet1 Hall), (scrape_run _ _ _ Hnet Hall).
  pose proof (parse_elements_same_outcome elements 0 [] []
                (say (Found (length elements)) (say Fetching (say Banner w1)))
                (say (Found (length elements)) (say Fetching (say Banner w2)))
                eq_refl) as Hloop.
  destruct (parse_elements 0 elements [] _) as [[developers1|e1] w1'],
    (parse_elements 0 elements [] _) as [[developers2|e2] w2'];
    cbn [fst same_outcome] in *; try done.
  subst e2. apply scrape_clauses_same_outcome.
Qed.

(** A row whose heading holds no link and only white space, and which has
    no handle node, is not retained: a blank name counts as no name. *)
Theorem blank_row_is_dropped (i : nat) (element heading : node) (text : str) :
  find (py "h1") (Some (py "h3")) element = Ok (Some heading) →
  find (py "a") None heading = Ok None →
  get_text heading = Ok text →
  Forall (λ c, isspace c = true) text →
  find (py "p") (Some (py "f4")) element = Ok None →
  retained i element = false.
Proof.
  intros Hheading Hlink Htext Hblank Hhandle.
  destruct (row_fields i element) as [d|e] eqn:Hd;
    [|unfold retained; by rewrite Hd].
  destruct (row_fields_split _ _ _ Hd) as (d1 & d2 & d3 & H1 & H2 & H3 & H4).
  unfold name_fields in H1. rewrite Hheading in H1. cbn in H1.
  rewrite Hlink in H1. cbn in H1. rewrite Htext in H1. cbn in H1.
  rewrite (strip_blank _ Hblank) in H1. injection H1 as <-.
  unfold username_field in H2. rewrite Hhandle in H2. injection H2 as <-.
  apply avatar_field_ok in H3 as (? & ->).
  apply repo_fields_ok in H4 as (? & ? & -> & _).
  by apply (retained_nameless _ _ _ Hd).
Qed.
End Listing.

Lemma ranks_strictly_increase_sample :
  ∃ developers w' ranks,
    parse_elements 0 Sample.rows [] Sample.online = (Ok developers, w') ∧
    Forall2 (λ (d : record) r, d !! "rank" = Some (VInt (Z.of_nat r)))
      developers ranks ∧
    StronglySorted lt ranks ∧
    Forall (λ r, 1 ≤ r ≤ length Sample.rows) ranks ∧
    length developers ≤ length Sample.rows.
Proof.
  apply (ranks_strictly_increase Sample.rows Sample.online). reflexivity.
Defined.

Lemma records_stamped_in_turn_sample :
  ∃ developers w',
    parse_elements 0 Sample.rows [] Sample.later = (Ok developers, w') ∧
    ticks w' = ticks Sample.later + length developers ∧
    ∀ k d, developers !! k = Some d →
      d !! "scraped_at"
      = Some (VStr (isoformat (clock Sample.later (ticks Sample.later + k)))).
Proof.
  apply (records_stamped_in_turn Sample.rows Sample.later). reflexivity.
Defined.

Lemma scrape_repeatable_sample :
  same_outcome (scrape_trending_developers Sample.online).1
    (scrape_trending_developers Sample.later).1.
Proof.
  apply (scrape_repeatable Sample.online Sample.later). reflexivity.
Defined.

Lemma blank_row_is_dropped_sample :
  retained 0 Sample.blank_heading = false.
Proof.
  apply (blank_row_is_dropped 0 Sample.blank_heading
           (Sample.tag "h1" ["h3"] [] [Sample.text "  "]) (py "  "));
    try reflexivity.
  repeat constructor.
Defined.

(** ** The report on the writers *)

Section Report.
Context `{Soup node} {rich : Rich}.
Implicit Types w : world node.

Lemma main_closing_lines (n : nat) (csv_saved json_saved : bool)
    (csv_filename json_filename : str) w :
  ∃ w',
    (console_print (Scraped n);;
     (if csv_saved then console_print (CsvSaved csv_filename) else mret tt);;
     (if json_saved then console_print (JsonSaved json_filename)
      else mret tt);;
     if negb csv_saved || negb json_saved
     then console_print SomeFailed
     else mret tt) w = (Ok tt, w') ∧
    console w' =
      console w
      ++ closing_lines n csv_saved json_saved csv_filename json_filename.
Proof.
  destruct csv_saved, json_saved; eexists; (split; [reflexivity|]);
    world_simpl; by rewrite <-?app_assoc.
Qed.

Lemma save_to_csv_answer (developers : list record) (filename : str) w :
  io_failures_only w → developers ≠ [] → Forall well_formed developers →
  ∃ w',
    save_to_csv developers filename w
      = (Ok (bool_decide (disk w filename = None)), w') ∧
    touches filename w w'.
Proof.
  intros Hio Hne Hwf. destruct (disk w filename) as [f|] eqn:Hdisk.
  - destruct (save_to_csv_returns developers filename w Hio)
      as (b & w' & Hrun & Hw' & Hb).
    rewrite Hb in Hrun by (by rewrite Hdisk). eauto.
  - destruct (save_to_csv_writes developers filename w Hne Hwf Hdisk)
      as (w' & lines & Hrun & Hw' & _). eauto.
Qed.

Lemma save_to_json_answer (developers : list record) (filename : str) w :
  io_failures_only w → developers ≠ [] →
  ∃ w',
    save_to_json developers filename w
      = (Ok (bool_decide (disk w filename = None)), w') ∧
    touches filename w w'.
Proof.
  intros Hio Hne. destruct (disk w filename) as [f|] eqn:Hdisk.
  - destruct (save_to_json_returns developers filename w Hio)
      as (b & w' & Hrun & Hw' & Hb & _).
    rewrite Hb in Hrun by (by rewrite Hdisk). eauto.
  - destruct (save_to_json_returns developers filename w Hio)
      as (b & w' & Hrun & Hw' & _).
    rewrite (save_to_json_writes _ _ _ Hne Hdisk) in Hrun.
    injection Hrun as <- <-. eexists. split; [|done].
    by apply save_to_json_writes.
Qed.

(** A run that has records to save, whose table the console can draw,
    names both files after one reading of the clock, taken when the
    extractor returns (in a year of four digits), and ends with the count
    of records followed by one line per file saved, the line of the tabular
    file exactly when the disk accepts its path and the line of the
    structured file exactly when the disk accepts its own, and by the
    warning exactly when one of the two paths is refused. *)
Theorem main_reports_each_writer w (developers : list record) w1 :
  io_failures_only w →
  (setup_directories;; scrape_trending_developers) w = (Ok developers, w1) →
  developers ≠ [] →
  table_renders developers →
  (1000 ≤ year (clock w (ticks w1)))%N →
  ∃ w' prefix,
    let timestamp := strftime_compact (clock w (ticks w1)) in
    let csv_filename := output_path timestamp (py ".csv") in
    let json_filename := output_path timestamp (py ".json") in
    main w = (Ok tt, w') ∧
    console w' =
      prefix ++
      closing_lines (length developers)
        (bool_decide (disk w csv_filename = None))
        (bool_decide (disk w json_filename = None))
        csv_filename json_filename.
Proof.
  intros Hio Hscrape Hne Hrenders _.
  destruct (setup_directories w) as [[[]|e0] w0] eqn:Hsetup;
    [|by erewrite bind_raise in Hscrape by exact Hsetup].
  erewrite bind_ok in Hscrape by exact Hsetup.
  assert (disk w0 = disk w ∧ clock w0 = clock w) as [Hdisk0 Hclock0].
  { unfold setup_directories, os_makedirs in Hsetup.
    destruct (makedirs_fault w); [discriminate Hsetup|].
    by injection Hsetup as <-. }
  destruct (scrape_any _ _ _ Hscrape) as [Hw1 Hwf].
  specialize (Hwf developers eq_refl).
  assert (disk w1 = disk w ∧ clock w1 = clock w) as [Hdisk1 Hclock1]
    by (destruct Hw1 as (_&_&->&_&_&->&_); done).
  rewrite <-Hclock1. cbv zeta.
  set (timestamp := strftime_compact (clock w1 (ticks w1))).
  set (csv_filename := output_path timestamp (py ".csv")).
  set (json_filename := output_path timestamp (py ".json")).
  set (w2 := say Saving (set_ticks (S (ticks w1)) w1)).
  assert (io_failures_only w2) as Hio2.
  { intros p f. unfold w2. world_simpl. rewrite Hdisk1. apply Hio. }
  destruct (save_to_csv_answer developers csv_filename w2 Hio2 Hne Hwf)
    as (w3 & Hcsv & Hw3).
  assert (io_failures_only w3) as Hio3
    by (by eapply io_failures_only_touches).
  destruct (save_to_json_answer developers json_filename w3 Hio3 Hne)
    as (w4 & Hjson & Hw4).
  assert (disk w2 = disk w) as Hdisk2 by (unfold w2; by world_simpl).
  assert (disk w3 = disk w) as Hdisk3
    by (destruct Hw3 as (-> & _); done).
  rewrite Hdisk2 in Hcsv. rewrite Hdisk3 in Hjson.
  destruct (display_results_shows developers (say Rule w4) Hne Hwf Hrenders)
    as (rows & w5 & Hshow & _).
  destruct (main_closing_lines (length developers)
              (bool_decide (disk w csv_filename = None))
              (bool_decide (disk w json_filename = None))
              csv_filename json_filename w5) as (w' & Hclose & Hconsole).
  exists w', (console w5). split; [|done].
  unfold main. apply try_ok.
  erewrite bind_ok by exact Hsetup.
  erewrite bind_ok by exact Hscrape.
  destruct developers as [|d ds]; [done|]. cbv iota.
  erewrite bind_ok by reflexivity. cbv zeta.
  erewrite bind_ok by reflexivity.
  erewrite bind_ok by exact Hcsv.
  erewrite bind_ok by exact Hjson.
  erewrite bind_ok by reflexivity.
  erewrite bind_ok by exact Hshow.
  exact Hclose.
Qed.
End Report.

Lemma main_reports_each_writer_sample :
  ∃ developers w1,
    (setup_directories;; scrape_trending_developers) Sample.csv_refused
      = (Ok developers, w1) ∧
    developers ≠ [] ∧
    table_renders (rich := Sample.renderer) developers ∧
    (1000 ≤ year (clock Sample.csv_refused (ticks w1)))%N ∧
    ∃ w' prefix,
      let timestamp :=
        strftime_compact (clock Sample.csv_refused (ticks w1)) in
      let csv_filename := output_path timestamp (py ".csv") in
      let json_filename := output_path timestamp (py ".json") in
      main (rich := Sample.renderer) Sample.csv_refused = (Ok tt, w') ∧
      console w' =
        prefix ++
        closing_lines (length developers)
          (bool_decide (disk Sample.csv_refused csv_filename = None))
          (bool_decide (disk Sample.csv_refused json_filename = None))
          csv_filename json_filename.
Proof.
  eexists _, _. split; [reflexivity|].
  assert (∀ l : list record, length l = 3 → l ≠ []) as Hne
    by (by intros [|? ?]).
  split; [apply Hne; vm_compute; reflexivity|].
  split; [eapply sample_table_renders; vm_compute; reflexivity|].
  split; [by vm_compute|].
  apply (main_reports_each_writer Sample.csv_refused);
    [exact csv_refused_io_failures_only|reflexivity| | |].
  - apply Hne. vm_compute. reflexivity.
  - eapply sample_table_renders; vm_compute; reflexivity.
  - by vm_compute.
Defined.

(** ** The other fields of a row *)

Section Fallbacks.
Context `{Soup node}.

Lemma row_fields_username (i : nat) (element : node) (d : record) :
  row_fields i element = Ok d →
  ∃ d1 d2,
    username_field element d1 = Ok d2 ∧ d !! "username" = d2 !! "username".
Proof.
  intros (d1 & d2 & d3 & _ & H2 & H3 & H4)%row_fields_split.
  exists d1, d2. split; [done|].
  apply avatar_field_ok in H3 as (? & ->).
  apply repo_fields_ok in H4 as (? & ? & -> & _).
  by rewrite !lookup_insert_ne.
Qed.

Lemma row_fields_repo (i : nat) (element : node) (d : record) :
  row_fields i element = Ok d → ∃ d3, repo_fields element d3 = Ok d.
Proof. intros (d1 & d2 & d3 & _ & _ & _ & H4)%row_fields_split. eauto. Qed.

(** In the record of a row the handle is the text of the link inside the
    handle node, trimmed, and empty when that node or its link is missing;
    the avatar link is empty when the image node or its [src] is missing. *)
Theorem handle_and_avatar_fallbacks (i : nat) (element : node) (d : record) :
  row_fields i element = Ok d →
  (∀ handle link text,
     find (py "p") (Some (py "f4")) element = Ok (Some handle) →
     find (py "a") None handle = Ok (Some link) →
     get_text link = Ok text →
     d !! "username" = Some (VStr (strip text))) ∧
  (∀ handle,
     find (py "p") (Some (py "f4")) element = Ok (Some handle) →
     find (py "a") None handle = Ok None →
     d !! "username" = Some (VStr [])) ∧
  (find (py "p") (Some (py "f4")) element = Ok None →
   d !! "username" = Some (VStr [])) ∧
  (∀ img,
     find (py "img") (Some (py "avatar-user")) element = Ok (Some img) →
     get (py "src") img = Ok None →
     d !! "avatar_url" = Some (VStr [])) ∧
  (find (py "img") (Some (py "avatar-user")) element = Ok None →
   d !! "avatar_url" = Some (VStr [])).
Proof.
  intros Hd.
  destruct (row_fields_username _ _ _ Hd) as (d1 & d2 & H2 & ->).
  destruct (row_fields_avatar _ _ _ Hd) as (d2' & d3 & H3 & ->).
  unfold username_field in H2. unfold avatar_field in H3.
  repeat split.
  - intros handle link text Hhandle Hlink Htext.
    rewrite Hhandle in H2. cbn in H2. rewrite Hlink in H2. cbn in H2.
    rewrite Htext in H2. injection H2 as <-. apply lookup_insert_eq.
  - intros handle Hhandle Hlink.
    rewrite Hhandle in H2. cbn in H2. rewrite Hlink in H2.
    injection H2 as <-. apply lookup_insert_eq.
  - intros Hhandle. rewrite Hhandle in H2.
    injection H2 as <-. apply lookup_insert_eq.
  - intros img Himg Hsrc. rewrite Himg in H3. cbn in H3. rewrite Hsrc in H3.
    injection H3 as <-. apply lookup_insert_eq.
  - intros Himg. rewrite Himg in H3.
    injection H3 as <-. apply lookup_insert_eq.
Qed.

(** In the record of a row the featured item comes from the first nested
    [article]: its name is the text of the link in its heading, or of the
    heading itself when it holds no link, trimmed, and empty without a
    heading; its description is the text of the description node, trimmed,
    and empty without one; without a nested [article] both are empty. *)
Theorem featured_item_fields (i : nat) (element : node) (d : record) :
  row_fields i element = Ok d →
  (find (py "article") None element = Ok None →
   d !! "popular_repo" = Some (VStr []) ∧
   d !! "repo_description" = Some (VStr [])) ∧
  (∀ article,
     find (py "article") None element = Ok (Some article) →
     (∀ heading link text,
        find (py "h1") (Some (py "h4")) article = Ok (Some heading) →
        find (py "a") None heading = Ok (Some link) →
        get_text link = Ok text →
        d !! "popular_repo" = Some (VStr (strip text))) ∧
     (∀ heading text,
        find (py "h1") (Some (py "h4")) article = Ok (Some heading) →
        find (py "a") None heading = Ok None →
        get_text heading = Ok text →
        d !! "popular_repo" = Some (VStr (strip text))) ∧
     (find (py "h1") (Some (py "h4")) article = Ok None →
      d !! "popular_repo" = Some (VStr [])) ∧
     (∀ description text,
        find (py "div") (Some (py "f6 color-fg-muted mt-1")) article
          = Ok (Some description) →
        get_text description = Ok text →
        d !! "repo_description" = Some (VStr (strip text))) ∧
     (find (py "div") (Some (py "f6 color-fg-muted mt-1")) article = Ok None →
      d !! "repo_description" = Some (VStr []))).
Proof.
  intros Hd. destruct (row_fields_repo _ _ _ Hd) as (d3 & H4). clear Hd.
  unfold repo_fields in H4. split.
  { intros Harticle. rewrite Harticle in H4. injection H4 as <-.
    by rewrite lookup_insert_ne, !lookup_insert_eq. }
  intros article Harticle. rewrite Harticle in H4. cbn in H4.
  repeat split.
  - intros heading link text Hheading Hlink Htext.
    rewrite Hheading in H4. cbn in H4. rewrite Hlink in H4. cbn in H4.
    rewrite Htext in H4. cbn in H4. break_calls H4; injection H4 as <-;
      by rewrite lookup_insert_ne, lookup_insert_eq.
  - intros heading text Hheading Hlink Htext.
    rewrite Hheading in H4. cbn in H4. rewrite Hlink in H4. cbn in H4.
    rewrite Htext in H4. cbn in H4. break_calls H4; injection H4 as <-;
      by rewrite lookup_insert_ne, lookup_insert_eq.
  - intros Hheading. rewrite Hheading in H4. cbn in H4.
    break_calls H4; injection H4 as <-;
      by rewrite lookup_insert_ne, lookup_insert_eq.
  - intros description text Hdesc Htext.
    rewrite Hdesc in H4. cbn in H4. rewrite Htext in H4.
    break_calls H4; injection H4 as <-; apply lookup_insert_eq.
  - intros Hdesc. rewrite Hdesc in H4.
    break_calls H4; injection H4 as <-; apply lookup_insert_eq.
Qed.

(** A heading link that carries no [href] still gives a profile link: the
    origin followed by the four letters of [None]. *)
Theorem profile_link_without_href (i : nat) (element heading link : node)
    (d : record) :
  row_fields i element = Ok d →
  find (py "h1") (Some (py "h3")) element = Ok (Some heading) →
  find (py "a") None heading = Ok (Some link) →
  get (py "href") link = Ok None →
  d !! "profile_url" = Some (VStr (py "https://github.comNone")).
Proof.
  intros Hd Hheading Hlink Hhref.
  destruct (row_fields_split _ _ _ Hd) as (d1 & _ & _ & Hd1 & _).
  destruct (row_fields_name _ _ _ _ Hd Hd1) as [_ ->].
  unfold name_fields in Hd1. rewrite Hheading in Hd1. cbn in Hd1.
  rewrite Hlink in Hd1. cbn in Hd1.
  destruct (get_text link) as [text|]; [|done]. cbn in Hd1.
  rewrite Hhref in Hd1. injection Hd1 as <-. by rewrite lookup_insert_eq.
Qed.
End Fallbacks.

Lemma handle_and_avatar_fallbacks_sample :
  row_fields 0 Sample.unlinked = Ok Sample.dee_fields ∧
  (∀ handle link text,
     find (py "p") (Some (py "f4")) Sample.unlinked = Ok (Some handle) →
     find (py "a") None handle = Ok (Some link) →
     get_text link = Ok text →
     Sample.dee_fields !! "username" = Some (VStr (strip text))) ∧
  (∀ handle,
     find (py "p") (Some (py "f4")) Sample.unlinked = Ok (Some handle) →
     find (py "a") None handle = Ok None →
     Sample.dee_fields !! "username" = Some (VStr [])) ∧
  (find (py "p") (Some (py "f4")) Sample.unlinked = Ok None →
   Sample.dee_fields !! "username" = Some (VStr [])) ∧
  (∀ img,
     find (py "img") (Some (py "avatar-user")) Sample.unlinked
       = Ok (Some img) →
     get (py "src") img = Ok None →
     Sample.dee_fields !! "avatar_url" = Some (VStr [])) ∧
  (find (py "img") (Some (py "avatar-user")) Sample.unlinked = Ok None →
   Sample.dee_fields !! "avatar_url" = Some (VStr [])).
Proof.
  split; [reflexivity|].
  apply (handle_and_avatar_fallbacks 0 Sample.unlinked). reflexivity.
Defined.

Lemma featured_item_fields_sample :
  row_fields 0 (Sample.row "Ann" "ann") = Ok Sample.ann_fields ∧
  (find (py "article") None (Sample.row "Ann" "ann") = Ok None →
   Sample.ann_fields !! "popular_repo" = Some (VStr []) ∧
   Sample.ann_fields !! "repo_description" = Some (VStr [])) ∧
  (∀ article,
     find (py "article") None (Sample.row "Ann" "ann") = Ok (Some article) →
     (∀ heading link text,
        find (py "h1") (Some (py "h4")) article = Ok (Some heading) →
        find (py "a") None heading = Ok (Some link) →
        get_text link = Ok text →
        Sample.ann_fields !! "popular_repo" = Some (VStr (strip text))) ∧
     (∀ heading text,
        find (py "h1") (Some (py "h4")) article = Ok (Some heading) →
        find (py "a") None heading = Ok None →
        get_text heading = Ok text →
        Sample.ann_fields !! "popular_repo" = Some (VStr (strip text))) ∧
     (find (py "h1") (Some (py "h4")) article = Ok None →
      Sample.ann_fields !! "popular_repo" = Some (VStr [])) ∧
     (∀ description text,
        find (py "div") (Some (py "f6 color-fg-muted mt-1")) article
          = Ok (Some description) →
        get_text description = Ok text →
        Sample.ann_fields !! "repo_description" = Some (VStr (strip text))) ∧
     (find (py "div") (Some (py "f6 color-fg-muted mt-1")) article = Ok None →
      Sample.ann_fields !! "repo_description" = Some (VStr []))).
Proof.
  split; [reflexivity|].
  apply (featured_item_fields 0 (Sample.row "Ann" "ann")). reflexivity.
Defined.

Lemma profile_link_without_href_sample :
  row_fields 0 Cases.no_href
    = Ok (assemble 0 (py "Zed") (py "https://github.comNone") [] [] [] []) ∧
  assemble 0 (py "Zed") (py "https://github.comNone") [] [] [] []
    !! "profile_url"
  = Some (VStr (py "https://github.comNone")).
Proof.
  split; [reflexivity|].
  apply (profile_link_without_href 0 Cases.no_href
           (Sample.tag "h1" ["h3"] [] [Sample.tag "a" [] [] [Sample.text "Zed"]])
           (Sample.tag "a" [] [] [Sample.text "Zed"])); reflexivity.
Defined.

(** ** Interrupts and file names *)

Section Interrupts.
Context `{Soup node} {rich : Rich}.
Implicit Types w : world node.

(** A row cut short by an exception outside [Exception] ends the loop
    there: the handler of the row does not catch it, the rows after it are
    not parsed and no list is returned. *)
Theorem interrupt_ends_the_loop (elements : list node) :
  ∀ (i : nat) (developers : list record) w,
    uninterrupted i elements = false →
    ∃ e w',
      parse_elements i elements developers w = (Raise e, w') ∧
      is_Exception e = false.
Proof.
  induction elements as [|element rest IH]; intros i developers w Hrun;
    [done|].
  cbn [uninterrupted] in Hrun.
  rewrite parse_elements_cons, parse_element_run.
  destruct (row_fields i element) as [d0|e] eqn:Hd0.
  - destruct (retained i element); by apply IH.
  - destruct (is_Exception e) eqn:He; [by apply IH|]. by exists e, w.
Qed.

End Interrupts.

Lemma interrupt_ends_the_loop_sample :
  uninterrupted 0 Cases.interrupted_rows = false ∧
  ∃ e w',
    parse_elements 0 Cases.interrupted_rows [] Sample.brittle = (Raise e, w') ∧
    is_Exception e = false.
Proof.
  split; [reflexivity|].
  apply (interrupt_ends_the_loop Cases.interrupted_rows 0 [] Sample.brittle).
  reflexivity.
Defined.


(** The name of an output file tells its run and its format: two output
    paths are equal only for the same timestamp and the same extension, so
    the two files of a run never share a path and runs stamped differently
    never write to the same file. *)
Theorem output_path_injective (timestamp1 timestamp2 ext1 ext2 : str) :
  ext1 ∈ [py ".csv"; py ".json"] → ext2 ∈ [py ".csv"; py ".json"] →
  output_path timestamp1 ext1 = output_path timestamp2 ext2 →
  timestamp1 = timestamp2 ∧ ext1 = ext2.
Proof.
  intros H1 H2 Hpath. unfold output_path in Hpath.
  do 3 apply app_inv_head in Hpath.
  apply (f_equal reverse) in Hpath. rewrite !reverse_app in Hpath.
  repeat (apply elem_of_cons in H1 as [->|H1]);
    repeat (apply elem_of_cons in H2 as [->|H2]);
    try (by apply elem_of_nil in H1); try (by apply elem_of_nil in H2);
    try discriminate Hpath.
  - apply (app_inv_head (reverse (py ".csv"))) in Hpath.
    split; [|done]. by apply (inj reverse).
  - apply (app_inv_head (reverse (py ".json"))) in Hpath.
    split; [|done]. by apply (inj reverse).
Qed.

Lemma output_path_injective_sample :
  py "20240517_093000" = py "20240517_093000" ∧ py ".csv" = py ".csv".
Proof.
  apply (output_path_injective (py "20240517_093000") (py "20240517_093000")
           (py ".csv") (py ".csv")); [by left|by left|reflexivity].
Defined.
